(** * The PostgreSQL dataset resource of the Data Factory service

    A shallow embedding of
    [internal/services/datafactory/data_factory_dataset_postgresql_resource.go]:
    the resource descriptor and its three lifecycle handlers
    (create/update, read, delete).

    The handlers are written in a small state monad.  The state holds the
    [*pluginsdk.ResourceData] the handlers share by pointer, the state of
    the remote platform behind the SDK client, and the log of the client
    calls issued so far.  A computation either goes on, executes a Go
    [return] of the handler, or panics (nil dereference).

    Deadlines ([timeouts.ForCreateUpdate] and friends, [defer cancel()])
    and [log.Printf] have no counterpart here. *)

From Stdlib Require Import ZArith Ascii String.
From stdpp Require Import gmap strings list.

Set Warnings "-register-all".
Local Open Scope string_scope.

(** ** Go values *)

(** A value of static type [interface{}]. *)
Inductive any :=
| ANil
| AString (s : string)
| ABool (b : bool)
| ANumber (z : Z)
| AList (l : list any)
| AMap (m : list (string * any)).

(** The zero values [GetOk] tests for. *)
Definition is_zero (v : any) : bool :=
  match v with
  | ANil | AString "" | ABool false | ANumber 0%Z | AList [] | AMap [] => true
  | _ => false
  end.

(** ** Package [parse]: resource identifiers *)

Module parse.

(** [strings.Split(input, "/")]. *)
Fixpoint split_slash (s : string) : list string :=
  match s with
  | EmptyString => [EmptyString]
  | String c rest =>
      if Ascii.eqb c "/"%char then EmptyString :: split_slash rest
      else match split_slash rest with
           | [] => [String c EmptyString]
           | seg :: segs => String c seg :: segs
           end
  end.

Fixpoint no_slash (s : string) : bool :=
  match s with
  | EmptyString => true
  | String c rest => negb (Ascii.eqb c "/"%char) && no_slash rest
  end.

(** [strings.Join(segments, "/")]. *)
Fixpoint join_slash (segments : list string) : string :=
  match segments with
  | [] => EmptyString
  | [seg] => seg
  | seg :: rest => seg +:+ String "/"%char (join_slash rest)
  end.

Fixpoint strings_eqb (l1 l2 : list string) : bool :=
  match l1, l2 with
  | [], [] => true
  | a :: l1', b :: l2' => String.eqb a b && strings_eqb l1' l2'
  | _, _ => false
  end.

(** The characters of a plain path component: ASCII letters, digits,
    hyphen, underscore and full stop.  None of them separates components,
    and none means anything of its own in a URL, as the percent sign, the
    question mark and the hash do. *)
Definition plain_char (c : ascii) : bool :=
  (Ascii.leb "a" c && Ascii.leb c "z")
  || (Ascii.leb "A" c && Ascii.leb c "Z")
  || (Ascii.leb "0" c && Ascii.leb c "9")
  || Ascii.eqb c "-" || Ascii.eqb c "_" || Ascii.eqb c ".".

Fixpoint plain (s : string) : bool :=
  match s with
  | EmptyString => true
  | String c rest => plain_char c && plain rest
  end.

(** A valid identifier component: not empty and made of plain characters. *)
Definition valid_segment (s : string) : bool :=
  negb (String.eqb s "") && plain s.

Inductive ParseError :=
| Malformed (input : string)
| EmptySegment (input : string) (key : string).

Module DataFactoryId.
Record t := mk {
  SubscriptionId : string;
  ResourceGroup : string;
  FactoryName : string }.
End DataFactoryId.

Module DataSetId.
Record t := mk {
  SubscriptionId : string;
  ResourceGroup : string;
  FactoryName : string;
  Name : string }.
End DataSetId.

Section Provider.

(** The [{provider}] segment of the identifier format, fixed per entity
    kind; its value lives with the identifier package. *)
Variable provider : string.

Definition NewDataFactoryID (subscriptionId resourceGroup factoryName : string)
  : DataFactoryId.t :=
  DataFactoryId.mk subscriptionId resourceGroup factoryName.

Definition NewDataSetID (subscriptionId resourceGroup factoryName name : string)
  : DataSetId.t :=
  DataSetId.mk subscriptionId resourceGroup factoryName name.

(** Modelled from the spec: the method [ID()] of [parse.DataFactoryId] is
    missing; the identifier format
    [/subscriptions/{sub}/resourceGroups/{rg}/providers/{provider}/factories/{factory}]
    is the dataset format of the spec cut at the parent container. *)
Definition DataFactoryId_ID (id : DataFactoryId.t) : string :=
  "/subscriptions/" +:+ DataFactoryId.SubscriptionId id +:+
  "/resourceGroups/" +:+ DataFactoryId.ResourceGroup id +:+
  "/providers/" +:+ provider +:+
  "/factories/" +:+ DataFactoryId.FactoryName id.

(** Modelled from the spec: the method [ID()] of [parse.DataSetId] is
    missing; it renders
    [/subscriptions/{sub}/resourceGroups/{rg}/providers/{provider}/factories/{factory}/datasets/{name}]. *)
Definition DataSetId_ID (id : DataSetId.t) : string :=
  "/subscriptions/" +:+ DataSetId.SubscriptionId id +:+
  "/resourceGroups/" +:+ DataSetId.ResourceGroup id +:+
  "/providers/" +:+ provider +:+
  "/factories/" +:+ DataSetId.FactoryName id +:+
  "/datasets/" +:+ DataSetId.Name id.

(** The first empty component among the keyed ones, if any. *)
Fixpoint first_empty (kvs : list (string * string)) : option string :=
  match kvs with
  | [] => None
  | (k, v) :: rest => if String.eqb v "" then Some k else first_empty rest
  end.

(** Modelled from the spec: the function [parse.DataFactoryID] is missing;
    it reads the identifier format back, segment by segment, and refuses
    any other shape and empty components. *)
Definition DataFactoryID (input : string) : ParseError + DataFactoryId.t :=
  match split_slash input with
  | [ root; k1; sub; k2; rg; k3; p; k4; factory ] =>
      if strings_eqb [root; k1; k2; k3; p; k4]
           [""; "subscriptions"; "resourceGroups"; "providers"; provider;
            "factories"]
      then
        match first_empty [("subscriptions", sub); ("resourceGroups", rg);
                           ("factories", factory)] with
        | Some k => inl (EmptySegment input k)
        | None => inr (DataFactoryId.mk sub rg factory)
        end
      else inl (Malformed input)
  | _ => inl (Malformed input)
  end.

(** Modelled from the spec: the function [parse.DataSetID] is missing; it
    reads the identifier format back, segment by segment, and refuses any
    other shape and empty components. *)
Definition DataSetID (input : string) : ParseError + DataSetId.t :=
  match split_slash input with
  | [ root; k1; sub; k2; rg; k3; p; k4; factory; k5; name ] =>
      if strings_eqb [root; k1; k2; k3; p; k4; k5]
           [""; "subscriptions"; "resourceGroups"; "providers"; provider;
            "factories"; "datasets"]
      then
        match first_empty [("subscriptions", sub); ("resourceGroups", rg);
                           ("factories", factory); ("datasets", name)] with
        | Some k => inl (EmptySegment input k)
        | None => inr (DataSetId.mk sub rg factory name)
        end
      else inl (Malformed input)
  | _ => inl (Malformed input)
  end.

End Provider.

End parse.

(** ** Go errors

    One constructor per place that makes an error value: the format
    strings of the handlers' [fmt.Errorf] calls, the parse package, the
    import helper, and the errors that come from outside (SDK client,
    [d.Set]). *)
Inductive error :=
| ExternalError (msg : string)
| ParseFailure (e : parse.ParseError)
| ImportAsExists (resourceName : string) (id : string)
| CheckingForPresence (id : parse.DataSetId.t) (err : error)
| CreatingUpdating (id : parse.DataSetId.t) (err : error)
| Retrieving (id : parse.DataSetId.t) (err : error)
| Classifying (id : parse.DataSetId.t) (expected received : string)
| SettingField (field : string) (err : error)
| Deleting (id : parse.DataSetId.t) (err : error).

(** ** The HTTP envelope of an SDK result *)

Module http.
Module Response.
Record t := mk { StatusCode : Z }.
End Response.
Definition StatusNotFound : Z := 404%Z.
End http.

Module autorest.
Module Response.
(** The embedded [*http.Response]; [None] is the nil pointer. *)
Record t := mk { Response : option http.Response.t }.
End Response.
End autorest.

Module utils.
(** Modelled from the spec: the function [utils.ResponseWasNotFound] is
    missing; a response is a "not found" response when it carries the HTTP
    status 404. *)
Definition ResponseWasNotFound (resp : autorest.Response.t) : bool :=
  match autorest.Response.Response resp with
  | Some r => (http.Response.StatusCode r =? http.StatusNotFound)%Z
  | None => false
  end.
End utils.

Module tf.
(** Modelled from the spec: the function [tf.ImportAsExistsError] is
    missing; it makes the "already exists" conflict error for a resource
    type and the identifier found upstream. *)
Definition ImportAsExistsError (resourceName id : string) : error :=
  ImportAsExists resourceName id.
End tf.

(** ** Package [datafactory] of the SDK: the fields the handlers touch *)

Module datafactory.

Module LinkedServiceReference.
Record t := mk {
  Type_ : option string;
  ReferenceName : option string }.
End LinkedServiceReference.

Module DatasetFolder.
Record t := mk { Name : option string }.
End DatasetFolder.

Module ParameterSpecification.
Record t := mk {
  Type_ : string;
  DefaultValue : any }.
End ParameterSpecification.

Module RelationalTableDatasetTypeProperties.
Record t := mk { TableName : any }.
End RelationalTableDatasetTypeProperties.

Module RelationalTableDataset.
Record t := mk {
  AdditionalProperties : list (string * any);
  RelationalTableDatasetTypeProperties :
    option RelationalTableDatasetTypeProperties.t;
  Description : option string;
  Structure : any;
  LinkedServiceName : option LinkedServiceReference.t;
  Parameters : list (string * ParameterSpecification.t);
  Annotations : option (list any);
  Folder : option DatasetFolder.t }.
End RelationalTableDataset.

(** The interface [BasicDataset]: the relational-table variant, or any of
    the other concrete datasets, kept by its discriminator. *)
Inductive BasicDataset :=
| IsRelationalTableDataset (r : RelationalTableDataset.t)
| IsOtherDataset (discriminator : string).

Definition AsRelationalTableDataset (p : BasicDataset)
  : option RelationalTableDataset.t :=
  match p with
  | IsRelationalTableDataset r => Some r
  | IsOtherDataset _ => None
  end.

Definition TypeBasicDatasetTypePostgreSQLTable : string := "PostgreSqlTable".

(** What a relational-table dataset holds for the four optional scalar
    fields of the resource; [None] when it holds nothing to copy back. *)
Module upstream.
Definition description (r : RelationalTableDataset.t) : option string :=
  RelationalTableDataset.Description r.
Definition linked_service_name (r : RelationalTableDataset.t) : option string :=
  match RelationalTableDataset.LinkedServiceName r with
  | Some linkedService => LinkedServiceReference.ReferenceName linkedService
  | None => None
  end.
Definition table_name (r : RelationalTableDataset.t) : option string :=
  match RelationalTableDataset.RelationalTableDatasetTypeProperties r with
  | Some properties =>
      match RelationalTableDatasetTypeProperties.TableName properties with
      | AString val => Some val
      | _ => None
      end
  | None => None
  end.
Definition folder (r : RelationalTableDataset.t) : option string :=
  match RelationalTableDataset.Folder r with
  | Some f => DatasetFolder.Name f
  | None => None
  end.
End upstream.

Module DatasetResource.
Record t := mk {
  Response : autorest.Response.t;
  Properties : option BasicDataset;
  ID : option string;
  Name : option string;
  Type_ : option string;
  Etag : option string }.
End DatasetResource.

(** The dataset client over a remote platform whose state has type [W]:
    each operation answers from the state and leaves a new one. *)
Module DatasetsClient.
Record t (W : Type) := mk {
  SubscriptionID : string;
  Get : W -> string -> string -> string -> string ->
        (DatasetResource.t * option error) * W;
  CreateOrUpdate : W -> string -> string -> string -> DatasetResource.t ->
                   string -> (DatasetResource.t * option error) * W;
  Delete : W -> string -> string -> string ->
           (autorest.Response.t * option error) * W }.
Arguments mk {W}.
Arguments SubscriptionID {W} _.
Arguments Get {W} _.
Arguments CreateOrUpdate {W} _.
Arguments Delete {W} _.
End DatasetsClient.

End datafactory.

Module clients.
(** The client handle [meta], cut down to the path
    [.DataFactory.DatasetClient] the handlers follow. *)
Module DataFactory.
Record t (W : Type) := mk { DatasetClient : datafactory.DatasetsClient.t W }.
Arguments mk {W}.
Arguments DatasetClient {W} _.
End DataFactory.
Module Client.
Record t (W : Type) := mk { DataFactory : clients.DataFactory.t W }.
Arguments mk {W}.
Arguments DataFactory {W} _.
End Client.
End clients.

(** ** Package [time] *)

Module time.
(** A [Duration] counts nanoseconds. *)
Definition Duration := Z.
Definition Nanosecond : Duration := 1%Z.
Definition Microsecond : Duration := (1000 * Nanosecond)%Z.
Definition Millisecond : Duration := (1000 * Microsecond)%Z.
Definition Second : Duration := (1000 * Millisecond)%Z.
Definition Minute : Duration := (60 * Second)%Z.
End time.

(** ** Package [pluginsdk]: schema, descriptor and resource data *)

(** The validation functions the schema names ([validate.*] of the
    service, [validation.*] of the provider). *)
Inductive SchemaValidateFunc :=
| validate_LinkedServiceDatasetName
| validate_DataFactoryName
| validate_DataFactoryID
| validation_StringIsNotEmpty
| validation_StringInSlice (valid : list string) (ignoreCase : bool).

Module pluginsdk.

Inductive ValueType := TypeString | TypeMap | TypeList.

Record SchemaOf (E : Type) := mkSchema {
  Type_ : ValueType;
  Required : bool;
  Optional : bool;
  Computed : bool;
  ForceNew : bool;
  ValidateFunc : option SchemaValidateFunc;
  Deprecated : string;
  ExactlyOneOf : list string;
  Elem : option E }.
Arguments mkSchema {E}.
Arguments Type_ {E} _.
Arguments Required {E} _.
Arguments Optional {E} _.
Arguments Computed {E} _.
Arguments ForceNew {E} _.
Arguments ValidateFunc {E} _.
Arguments Deprecated {E} _.
Arguments ExactlyOneOf {E} _.
Arguments Elem {E} _.

(** [Elem] is a [*Schema] or a [*Resource] with nothing but a schema. *)
Inductive SchemaElem :=
| ElemSchema (s : SchemaOf SchemaElem)
| ElemResource (schema : list (string * SchemaOf SchemaElem)).

Definition Schema := SchemaOf SchemaElem.

(** A schema with every field at its zero value but the type. *)
Definition schema_of_type (ty : ValueType) : Schema :=
  mkSchema ty false false false false None "" [] None.

Module ResourceTimeout.
Record t := mk {
  Create : option time.Duration;
  Read : option time.Duration;
  Update : option time.Duration;
  Delete : option time.Duration }.
End ResourceTimeout.

Definition DefaultTimeout (d : time.Duration) : option time.Duration := Some d.

Module Resource.
Record t (H : Type) := mk {
  Create : option H;
  Read : option H;
  Update : option H;
  Delete : option H;
  Importer : option (string -> option error);
  Timeouts : option ResourceTimeout.t;
  Schema : list (string * pluginsdk.Schema) }.
Arguments mk {H}.
Arguments Create {H} _.
Arguments Read {H} _.
Arguments Update {H} _.
Arguments Delete {H} _.
Arguments Importer {H} _.
Arguments Timeouts {H} _.
Arguments Schema {H} _.
End Resource.

Definition ImporterValidatingResourceId (validate : string -> option error)
  : option (string -> option error) := Some validate.

(** The entry of a schema map. *)
Fixpoint schema_lookup (key : string) (m : list (string * Schema))
  : option Schema :=
  match m with
  | [] => None
  | (k, s) :: rest => if String.eqb k key then Some s else schema_lookup key rest
  end.

(** [ResourceData]: the persistent key, the new-resource flag and the
    declared fields. *)
Module ResourceData.
Record t := mk {
  id : string;
  isNew : bool;
  values : gmap string any }.
End ResourceData.

Definition Id (d : ResourceData.t) : string := ResourceData.id d.

Definition SetId (v : string) (d : ResourceData.t) : ResourceData.t :=
  ResourceData.mk v (ResourceData.isNew d) (ResourceData.values d).

Definition IsNewResource (d : ResourceData.t) : bool := ResourceData.isNew d.

(** [d.Get(key).(string)] for a key of [TypeString]: an unset field reads
    as the zero value. *)
Definition GetString (d : ResourceData.t) (key : string) : string :=
  match ResourceData.values d !! key with
  | Some (AString s) => s
  | _ => ""
  end.

(** [d.GetOk(key)]: the value, and whether it is set to something other
    than the zero value. *)
Definition GetOk (d : ResourceData.t) (key : string) : any * bool :=
  match ResourceData.values d !! key with
  | Some v => (v, negb (is_zero v))
  | None => (ANil, false)
  end.

(** The type assertions on what [GetOk] gave. *)
Definition as_string (v : any) : string :=
  match v with AString s => s | _ => "" end.

Definition as_map (v : any) : list (string * any) :=
  match v with AMap m => m | _ => [] end.

Definition as_list (v : any) : list any :=
  match v with AList l => l | _ => [] end.

(** [d.Set(key, value)], given the verdict [check] of the schema on the
    value: a refused value leaves the field as it was. *)
Definition Set_ (check : string -> any -> option error)
  (key : string) (value : any) (d : ResourceData.t)
  : ResourceData.t * option error :=
  match check key value with
  | Some err => (d, Some err)
  | None =>
      (ResourceData.mk (ResourceData.id d) (ResourceData.isNew d)
         (<[key := value]> (ResourceData.values d)), None)
  end.

End pluginsdk.

(** Field updates of the payload under construction. *)
Module payload.
Import datafactory.RelationalTableDataset.
Definition set_Folder (v : option datafactory.DatasetFolder.t) (r : t) : t :=
  mk (AdditionalProperties r) (RelationalTableDatasetTypeProperties r)
     (Description r) (Structure r) (LinkedServiceName r) (Parameters r)
     (Annotations r) v.
Definition set_Parameters
  (v : list (string * datafactory.ParameterSpecification.t)) (r : t) : t :=
  mk (AdditionalProperties r) (RelationalTableDatasetTypeProperties r)
     (Description r) (Structure r) (LinkedServiceName r) v
     (Annotations r) (Folder r).
Definition set_Annotations (v : option (list any)) (r : t) : t :=
  mk (AdditionalProperties r) (RelationalTableDatasetTypeProperties r)
     (Description r) (Structure r) (LinkedServiceName r) (Parameters r)
     v (Folder r).
Definition set_AdditionalProperties (v : list (string * any)) (r : t) : t :=
  mk v (RelationalTableDatasetTypeProperties r)
     (Description r) (Structure r) (LinkedServiceName r) (Parameters r)
     (Annotations r) (Folder r).
Definition set_Structure (v : any) (r : t) : t :=
  mk (AdditionalProperties r) (RelationalTableDatasetTypeProperties r)
     (Description r) v (LinkedServiceName r) (Parameters r)
     (Annotations r) (Folder r).
End payload.

(** ** The log of client calls *)

Inductive Call :=
| CallGet (resourceGroupName factoryName datasetName ifNoneMatch : string)
| CallCreateOrUpdate (resourceGroupName factoryName datasetName : string)
    (dataset : datafactory.DatasetResource.t) (ifMatch : string)
| CallDelete (resourceGroupName factoryName datasetName : string).

Definition is_mutating (c : Call) : bool :=
  match c with
  | CallGet _ _ _ _ => false
  | CallCreateOrUpdate _ _ _ _ _ => true
  | CallDelete _ _ _ => true
  end.

Definition is_create_or_update (c : Call) : bool :=
  match c with
  | CallCreateOrUpdate _ _ _ _ _ => true
  | _ => false
  end.

(** The operation a call addresses. *)
Inductive CallKind := KindGet | KindCreateOrUpdate | KindDelete.

Definition kind_of (c : Call) : CallKind :=
  match c with
  | CallGet _ _ _ _ => KindGet
  | CallCreateOrUpdate _ _ _ _ _ => KindCreateOrUpdate
  | CallDelete _ _ _ => KindDelete
  end.

(** ** The errors of each handler

    What the [return] statements of a handler can hand back: the shapes of
    its [fmt.Errorf] calls and the errors it passes on as they are. *)

Definition is_read_error (e : error) : bool :=
  match e with
  | ParseFailure _ => true
  | Retrieving _ _ => true
  | Classifying _ expected _ => String.eqb expected "PostgreSqlTable"
  | SettingField field _ =>
      String.eqb field "parameters" || String.eqb field "annotations"
      || String.eqb field "schema_column"
  | _ => false
  end.

Definition is_create_update_error (e : error) : bool :=
  match e with
  | CheckingForPresence _ _ => true
  | ImportAsExists resourceName _ =>
      String.eqb resourceName "azurerm_data_factory_dataset_postgresql"
  | CreatingUpdating _ _ => true
  | _ => is_read_error e
  end.

Definition is_delete_error (e : error) : bool :=
  match e with
  | ParseFailure _ => true
  | Deleting _ _ => true
  | _ => false
  end.

Definition is_parse_failure (e : error) : bool :=
  match e with
  | ParseFailure _ => true
  | _ => false
  end.

(** A result that is [nil] or an error of the given class. *)
Definition nil_or (class : error -> bool) (result : option error) : Prop :=
  match result with
  | None => True
  | Some e => class e = true
  end.

(** ** The handler monad *)

Module run.

Record State (W : Type) := mkState {
  d : pluginsdk.ResourceData.t;
  world : W;
  calls : list Call }.
Arguments mkState {W}.
Arguments d {W} _.
Arguments world {W} _.
Arguments calls {W} _.

(** What a statement does: go on with a value, [return] from the handler
    with its [error] result ([None] is [nil]), or panic. *)
Inductive Step (A : Type) :=
| Next (a : A)
| Return (err : option error)
| Panic.
Arguments Next {A}.
Arguments Return {A}.
Arguments Panic {A}.

Definition M (W A : Type) : Type := State W -> Step A * State W.

(** How a handler ends. *)
Inductive Outcome :=
| Returned (err : option error)
| Panicked.

Section Ops.
Context {W : Type}.

Definition ret {A} (a : A) : M W A := fun s => (Next a, s).

Definition bind {A B} (m : M W A) (k : A -> M W B) : M W B :=
  fun s =>
    match m s with
    | (Next a, s') => k a s'
    | (Return err, s') => (Return err, s')
    | (Panic, s') => (Panic, s')
    end.

Definition return_ {A} (err : option error) : M W A := fun s => (Return err, s).

Definition panic {A} : M W A := fun s => (Panic, s).

(** A handler body never falls off its end. *)
Definition handler (m : M W Empty_set) (s : State W) : Outcome * State W :=
  match m s with
  | (Next e, _) => match e with end
  | (Return err, s') => (Returned err, s')
  | (Panic, s') => (Panicked, s')
  end.

(** Dereferencing a pointer. *)
Definition deref {A} (p : option A) : M W A :=
  match p with
  | Some a => ret a
  | None => panic
  end.

(** The methods of [d]. *)
Definition Id : M W string := fun s => (Next (pluginsdk.Id (d s)), s).

Definition SetId (v : string) : M W unit :=
  fun s => (Next tt, mkState (pluginsdk.SetId v (d s)) (world s) (calls s)).

Definition IsNewResource : M W bool :=
  fun s => (Next (pluginsdk.IsNewResource (d s)), s).

Definition GetString (key : string) : M W string :=
  fun s => (Next (pluginsdk.GetString (d s) key), s).

Definition GetOk (key : string) : M W (any * bool) :=
  fun s => (Next (pluginsdk.GetOk (d s) key), s).

Definition Set_ (check : string -> any -> option error)
  (key : string) (value : any) : M W (option error) :=
  fun s =>
    let r := pluginsdk.Set_ check key value (d s) in
    (Next (snd r), mkState (fst r) (world s) (calls s)).

(** The operations of the client: answer from the platform, log the call. *)
Definition Get (client : datafactory.DatasetsClient.t W)
  (resourceGroupName factoryName datasetName ifNoneMatch : string)
  : M W (datafactory.DatasetResource.t * option error) :=
  fun s =>
    let r :=
      datafactory.DatasetsClient.Get client (world s)
        resourceGroupName factoryName datasetName ifNoneMatch in
    (Next (fst r), mkState (d s) (snd r)
       (calls s ++ [CallGet resourceGroupName factoryName datasetName ifNoneMatch])).

Definition CreateOrUpdate (client : datafactory.DatasetsClient.t W)
  (resourceGroupName factoryName datasetName : string)
  (dataset : datafactory.DatasetResource.t) (ifMatch : string)
  : M W (datafactory.DatasetResource.t * option error) :=
  fun s =>
    let r :=
      datafactory.DatasetsClient.CreateOrUpdate client (world s)
        resourceGroupName factoryName datasetName dataset ifMatch in
    (Next (fst r), mkState (d s) (snd r)
       (calls s ++ [CallCreateOrUpdate resourceGroupName factoryName datasetName
                      dataset ifMatch])).

Definition Delete (client : datafactory.DatasetsClient.t W)
  (resourceGroupName factoryName datasetName : string)
  : M W (autorest.Response.t * option error) :=
  fun s =>
    let r :=
      datafactory.DatasetsClient.Delete client (world s)
        resourceGroupName factoryName datasetName in
    (Next (fst r), mkState (d s) (snd r)
       (calls s ++ [CallDelete resourceGroupName factoryName datasetName])).

(** A computation that leaves an observation of the state as it found
    it, however it ends. *)
Definition preserves {X A} (observe : State W -> X) (m : M W A) : Prop :=
  forall s : State W, observe (snd (m s)) = observe s.

(** The declared field [key]. *)
Definition field (key : string) (s : State W) : option any :=
  pluginsdk.ResourceData.values (d s) !! key.

(** A computation whose [return] statements only hand back results that
    satisfy [Q]. *)
Definition returns_only {A} (Q : option error -> Prop) (m : M W A) : Prop :=
  forall s : State W,
    match fst (m s) with
    | Return err => Q err
    | _ => True
    end.

(** The persistent key. *)
Definition key (s : State W) : string := pluginsdk.Id (d s).

(** A handler body that, whenever it returns [nil], leaves the declared
    field [k] holding [v]. *)
Definition establishes (k : string) (v : any) (m : M W Empty_set) : Prop :=
  forall s : State W, fst (m s) = Return None -> field k (snd (m s)) = Some v.

End Ops.

End run.

#[global] Instance M_ret {W : Type} : MRet (run.M W) := fun A => @run.ret W A.
#[global] Instance M_bind {W : Type} : MBind (run.M W) :=
  fun A B k m => @run.bind W A B m k.

(** ** A small platform to run the handlers on

    An in-memory store of datasets behind the client, with an optional
    fault that makes every operation fail with a given HTTP status, and
    plain stand-ins for the helpers of the service package. *)

Module sample.

Definition World : Type := gmap string datafactory.DatasetResource.t.

Definition provider : string := "Microsoft.DataFactory".

Definition subscription : string := "sub-1".

Definition key (resourceGroupName factoryName datasetName : string) : string :=
  resourceGroupName +:+ "/" +:+ factoryName +:+ "/" +:+ datasetName.

Definition answer (code : Z) : autorest.Response.t :=
  autorest.Response.mk (Some (http.Response.mk code)).

Definition no_entity (code : Z) : datafactory.DatasetResource.t :=
  datafactory.DatasetResource.mk (answer code) None None None None None.

Definition stored (rg factory name : string)
  (properties : option datafactory.BasicDataset) : datafactory.DatasetResource.t :=
  datafactory.DatasetResource.mk (answer 200) properties
    (Some (parse.DataSetId_ID provider
             (parse.NewDataSetID subscription rg factory name)))
    (Some name) (Some "Microsoft.DataFactory/factories/datasets") None.

Definition client (fault : option Z) : datafactory.DatasetsClient.t World :=
  datafactory.DatasetsClient.mk subscription
    (fun w rg factory name _ =>
       match fault with
       | Some code => ((no_entity code, Some (ExternalError "request failed")), w)
       | None =>
           match w !! key rg factory name with
           | Some r => ((r, None), w)
           | None => ((no_entity 404, Some (ExternalError "not found")), w)
           end
       end)
    (fun w rg factory name dataset _ =>
       match fault with
       | Some code => ((no_entity code, Some (ExternalError "request failed")), w)
       | None =>
           let r := stored rg factory name
                      (datafactory.DatasetResource.Properties dataset) in
           ((r, None), <[key rg factory name := r]> w)
       end)
    (fun w rg factory name =>
       match fault with
       | Some code => ((answer code, Some (ExternalError "request failed")), w)
       | None =>
           match w !! key rg factory name with
           | Some _ => ((answer 200, None), delete (key rg factory name) w)
           | None => ((answer 404, Some (ExternalError "not found")), w)
           end
       end).

Definition meta (fault : option Z) : clients.Client.t World :=
  clients.Client.mk (clients.DataFactory.mk (client fault)).

Definition expandParameters (m : list (string * any))
  : list (string * datafactory.ParameterSpecification.t) :=
  (fun kv => (fst kv, datafactory.ParameterSpecification.mk "String" (snd kv))) <$> m.

Definition flattenParameters (m : list (string * datafactory.ParameterSpecification.t))
  : list (string * any) :=
  (fun kv => (fst kv, datafactory.ParameterSpecification.DefaultValue (snd kv))) <$> m.

Definition flattenAnnotations (input : option (list any)) : list string :=
  match input with
  | None => []
  | Some l => pluginsdk.as_string <$> l
  end.

Definition expandStructure (l : list any) : any := AList l.

Definition flattenStructure (v : any) : list any := pluginsdk.as_list v.

Definition resourceGroupSchema : pluginsdk.Schema :=
  pluginsdk.mkSchema pluginsdk.TypeString true false false true None "" [] None.

Definition accept : string -> any -> option error := fun _ _ => None.

(** A relational-table dataset as the platform may hold it: no
    description, no folder, no linked service, a table name that is an
    expression object rather than a string. *)
Definition bare_table : datafactory.RelationalTableDataset.t :=
  datafactory.RelationalTableDataset.mk [] 
    (Some (datafactory.RelationalTableDatasetTypeProperties.mk
             (AMap [("type", AString "Expression")])))
    None ANil None [] None None.

Definition dataset_id : parse.DataSetId.t :=
  parse.NewDataSetID subscription "rg" "factory" "table".

(** Declared state of a resource that is to be created, named through the
    deprecated field. *)
Definition declared_by_name : pluginsdk.ResourceData.t :=
  pluginsdk.ResourceData.mk "" true
    (<["name" := AString "table"]>
       (<["data_factory_name" := AString "factory"]>
          (<["resource_group_name" := AString "rg"]>
             (<["linked_service_name" := AString "pg"]> ∅)))).

(** Declared state as a read leaves it: both factory fields hold a value. *)
Definition declared_after_read : pluginsdk.ResourceData.t :=
  pluginsdk.ResourceData.mk (parse.DataSetId_ID provider dataset_id) false
    (<["name" := AString "table"]>
       (<["data_factory_name" := AString "factory"]>
          (<["data_factory_id" :=
               AString (parse.DataFactoryId_ID provider
                          (parse.NewDataFactoryID subscription "rg" "factory"))]>
             (<["resource_group_name" := AString "rg"]>
                (<["linked_service_name" := AString "pg"]>
                   (<["description" := AString "orders"]> ∅)))))).

(** Declared state with neither factory field. *)
Definition declared_without_factory : pluginsdk.ResourceData.t :=
  pluginsdk.ResourceData.mk "" true
    (<["name" := AString "table"]> (<["resource_group_name" := AString "rg"]> ∅)).

(** The state after a read, with a map of additional properties on top. *)
Definition declared_with_extras : pluginsdk.ResourceData.t :=
  pluginsdk.ResourceData.mk (pluginsdk.ResourceData.id declared_after_read) false
    (<["additional_properties" := AMap [("owner", AString "team")]]>
       (pluginsdk.ResourceData.values declared_after_read)).

(** The platform holding one entity at [dataset_id]. *)
Definition holding (properties : option datafactory.BasicDataset) : World :=
  {[ key "rg" "factory" "table" := stored "rg" "factory" "table" properties ]}.

Definition probe : Call := CallGet "rg" "factory" "table" "".

(** The payload the create/update handler builds from [declared_by_name]. *)
Definition payload_by_name : datafactory.DatasetResource.t :=
  datafactory.DatasetResource.mk (autorest.Response.mk None)
    (Some (datafactory.IsRelationalTableDataset
             (datafactory.RelationalTableDataset.mk []
                (Some (datafactory.RelationalTableDatasetTypeProperties.mk (AString "")))
                (Some "") ANil
                (Some (datafactory.LinkedServiceReference.mk
                         (Some "LinkedServiceReference") (Some "pg")))
                [] None None)))
    None None (Some "PostgreSqlTable") None.

(** A relational-table dataset with every optional scalar present. *)
Definition full_table : datafactory.RelationalTableDataset.t :=
  datafactory.RelationalTableDataset.mk []
    (Some (datafactory.RelationalTableDatasetTypeProperties.mk (AString "public.orders")))
    (Some "orders of the shop") ANil
    (Some (datafactory.LinkedServiceReference.mk
             (Some "LinkedServiceReference") (Some "warehouse")))
    [] None
    (Some (datafactory.DatasetFolder.mk (Some "sales"))).

(** [declared_by_name] with a description on top. *)
Definition declared_by_name_described : pluginsdk.ResourceData.t :=
  pluginsdk.ResourceData.mk "" true
    (<["description" := AString "orders"]>
       (pluginsdk.ResourceData.values declared_by_name)).

(** The state after a read, with a key on top that the schema does not
    declare. *)
Definition declared_with_stray_key : pluginsdk.ResourceData.t :=
  pluginsdk.ResourceData.mk (pluginsdk.ResourceData.id declared_after_read) false
    (<["tags" := AMap [("env", AString "test")]]>
       (pluginsdk.ResourceData.values declared_after_read)).

(** The platform holding at [dataset_id] a dataset of another kind whose
    envelope carries no resource type. *)
Definition holding_untyped : World :=
  {[ key "rg" "factory" "table" :=
       datafactory.DatasetResource.mk (answer 200)
         (Some (datafactory.IsOtherDataset "AzureBlob"))
         (Some (parse.DataSetId_ID provider dataset_id)) (Some "table") None None ]}.

(** The payload the create/update handler builds from a declared state
    with linked service [pg] and description [orders]. *)
Definition payload_described : datafactory.DatasetResource.t :=
  datafactory.DatasetResource.mk (autorest.Response.mk None)
    (Some (datafactory.IsRelationalTableDataset
             (datafactory.RelationalTableDataset.mk []
                (Some (datafactory.RelationalTableDatasetTypeProperties.mk (AString "")))
                (Some "orders") ANil
                (Some (datafactory.LinkedServiceReference.mk
                         (Some "LinkedServiceReference") (Some "pg")))
                [] None None)))
    None None (Some "PostgreSqlTable") None.

(** What the importer of the descriptor checks. *)
Definition validate (id : string) : option error :=
  match parse.DataSetID provider id with
  | inl err => Some (ParseFailure err)
  | inr _ => None
  end.

End sample.

(** ** The resource *)

Section Resource.

Set Default Proof Using "Type".

Context {W : Type}.

(** What the file takes from the rest of the repository: the provider
    segment of the identifiers, the expand and flatten helpers of the
    service package, the shared schema of [resource_group_name], and the
    verdict of the schema on a value handed to [d.Set]. *)
Variable provider : string.
Variable expandDataFactoryParameters :
  list (string * any) -> list (string * datafactory.ParameterSpecification.t).
Variable flattenDataFactoryParameters :
  list (string * datafactory.ParameterSpecification.t) -> list (string * any).
Variable flattenDataFactoryAnnotations : option (list any) -> list string.
Variable expandDataFactoryDatasetStructure : list any -> any.
Variable flattenDataFactoryStructureColumns : any -> list any.
Variable azure_SchemaResourceGroupNameDiffSuppress : pluginsdk.Schema.
Variable schema_check : string -> any -> option error.

Definition Handler : Type := clients.Client.t W -> run.M W Empty_set.

(** Lines 287 to 329 of the read handler: the fields of the
    relational-table dataset, copied back into [d]. *)
Definition setRelationalTableFields
  (postgresqlTable : datafactory.RelationalTableDataset.t) : run.M W Empty_set :=
  run.Set_ schema_check "additional_properties"
    (AMap (datafactory.RelationalTableDataset.AdditionalProperties postgresqlTable));;
  match datafactory.RelationalTableDataset.Description postgresqlTable with
  | Some description =>
      run.Set_ schema_check "description" (AString description);; mret tt
  | None => mret tt
  end;;
  let parameters :=
    flattenDataFactoryParameters
      (datafactory.RelationalTableDataset.Parameters postgresqlTable) in
  err ← run.Set_ schema_check "parameters" (AMap parameters);
  match err with
  | Some e => run.return_ (Some (SettingField "parameters" e))
  | None => mret tt
  end;;
  let annotations :=
    flattenDataFactoryAnnotations
      (datafactory.RelationalTableDataset.Annotations postgresqlTable) in
  err ← run.Set_ schema_check "annotations" (AList (AString <$> annotations));
  match err with
  | Some e => run.return_ (Some (SettingField "annotations" e))
  | None => mret tt
  end;;
  match datafactory.RelationalTableDataset.LinkedServiceName postgresqlTable with
  | Some linkedService =>
      match datafactory.LinkedServiceReference.ReferenceName linkedService with
      | Some referenceName =>
          run.Set_ schema_check "linked_service_name" (AString referenceName);;
          mret tt
      | None => mret tt
      end
  | None => mret tt
  end;;
  match datafactory.RelationalTableDataset.RelationalTableDatasetTypeProperties
          postgresqlTable with
  | Some properties =>
      match datafactory.RelationalTableDatasetTypeProperties.TableName properties with
      | AString val => run.Set_ schema_check "table_name" (AString val);; mret tt
      | _ => mret tt
      end
  | None => mret tt
  end;;
  match datafactory.RelationalTableDataset.Folder postgresqlTable with
  | Some folder =>
      match datafactory.DatasetFolder.Name folder with
      | Some name => run.Set_ schema_check "folder" (AString name);; mret tt
      | None => mret tt
      end
  | None => mret tt
  end;;
  let structureColumns :=
    flattenDataFactoryStructureColumns
      (datafactory.RelationalTableDataset.Structure postgresqlTable) in
  err ← run.Set_ schema_check "schema_column" (AList structureColumns);
  match err with
  | Some e => run.return_ (Some (SettingField "schema_column" e))
  | None => mret tt
  end;;
  run.return_ None.

(** The read handler: lines 254 to 285, then the fields of the variant. *)
Definition resourceDataFactoryDatasetPostgreSQLRead : Handler := fun meta =>
  let client := clients.DataFactory.DatasetClient (clients.Client.DataFactory meta) in
  input ← run.Id;
  match parse.DataSetID provider input with
  | inl err => run.return_ (Some (ParseFailure err))
  | inr id =>
    let dataFactoryId :=
      parse.NewDataFactoryID (parse.DataSetId.SubscriptionId id)
        (parse.DataSetId.ResourceGroup id) (parse.DataSetId.FactoryName id) in
    '(resp, err) ← run.Get client (parse.DataSetId.ResourceGroup id)
                     (parse.DataSetId.FactoryName id) (parse.DataSetId.Name id) "";
    match err with
    | Some e =>
        if utils.ResponseWasNotFound (datafactory.DatasetResource.Response resp)
        then run.SetId "";; run.return_ None
        else run.return_ (Some (Retrieving id e))
    | None => mret tt
    end;;
    run.Set_ schema_check "name" (AString (parse.DataSetId.Name id));;
    run.Set_ schema_check "resource_group_name"
      (AString (parse.DataSetId.ResourceGroup id));;
    run.Set_ schema_check "data_factory_name"
      (AString (parse.DataSetId.FactoryName id));;
    run.Set_ schema_check "data_factory_id"
      (AString (parse.DataFactoryId_ID provider dataFactoryId));;
    properties ← run.deref (datafactory.DatasetResource.Properties resp);
    match datafactory.AsRelationalTableDataset properties with
    | None =>
        received ← run.deref (datafactory.DatasetResource.Type_ resp);
        run.return_ (Some (Classifying id
                             datafactory.TypeBasicDatasetTypePostgreSQLTable received))
    | Some postgresqlTable => setRelationalTableFields postgresqlTable
    end
  end.

(** The create/update handler is written in the three stretches it runs
    through before its call of the platform. *)

(** Lines 168 to 182: the dataset identifier, from the deprecated
    [data_factory_name] or from [data_factory_id]. *)
Definition resolveDataSetId (meta : clients.Client.t W) : run.M W parse.DataSetId.t :=
  let client := clients.DataFactory.DatasetClient (clients.Client.DataFactory meta) in
  let subscriptionId := datafactory.DatasetsClient.SubscriptionID client in
  let dataFactoryId : option parse.DataFactoryId.t := None in
  v ← run.GetString "data_factory_name";
  dataFactoryId ←
    (if negb (String.eqb v "") then
       resourceGroupName ← run.GetString "resource_group_name";
       dataFactoryName ← run.GetString "data_factory_name";
       let newDataFactoryId :=
         parse.NewDataFactoryID subscriptionId resourceGroupName dataFactoryName in
       mret (Some newDataFactoryId)
     else mret dataFactoryId);
  v ← run.GetString "data_factory_id";
  dataFactoryId ←
    (if negb (String.eqb v "") then
       match parse.DataFactoryID provider v with
       | inl err => run.return_ (Some (ParseFailure err))
       | inr parsed => mret (Some parsed)
       end
     else mret dataFactoryId);
  factory ← run.deref dataFactoryId;
  name ← run.GetString "name";
  mret (parse.NewDataSetID subscriptionId (parse.DataFactoryId.ResourceGroup factory)
          (parse.DataFactoryId.FactoryName factory) name).

(** Lines 184 to 195: the probe for an entity that is there already. *)
Definition checkForExisting (meta : clients.Client.t W) (id : parse.DataSetId.t)
  : run.M W unit :=
  let client := clients.DataFactory.DatasetClient (clients.Client.DataFactory meta) in
  isNew ← run.IsNewResource;
  if (isNew : bool) then
    '(existing, err) ← run.Get client (parse.DataSetId.ResourceGroup id)
                         (parse.DataSetId.FactoryName id) (parse.DataSetId.Name id) "";
    match err with
    | Some e =>
        if negb (utils.ResponseWasNotFound
                   (datafactory.DatasetResource.Response existing))
        then run.return_ (Some (CheckingForPresence id e))
        else mret tt
    | None => mret tt
    end;;
    match datafactory.DatasetResource.ID existing with
    | Some existingID =>
        if negb (String.eqb existingID "")
        then run.return_
               (Some (tf.ImportAsExistsError
                        "azurerm_data_factory_dataset_postgresql" existingID))
        else mret tt
    | None => mret tt
    end
  else mret tt.

(** Lines 197 to 243: the payload. *)
Definition expandDataset : run.M W datafactory.DatasetResource.t :=
  tableName ← run.GetString "table_name";
  let postgresqlDatasetProperties :=
    datafactory.RelationalTableDatasetTypeProperties.mk (AString tableName) in
  linkedServiceName ← run.GetString "linked_service_name";
  let linkedServiceType := "LinkedServiceReference" in
  let linkedService :=
    datafactory.LinkedServiceReference.mk (Some linkedServiceType)
      (Some linkedServiceName) in
  description ← run.GetString "description";
  let postgresqlTableset :=
    datafactory.RelationalTableDataset.mk [] (Some postgresqlDatasetProperties)
      (Some description) ANil (Some linkedService) [] None None in
  '(v, ok) ← run.GetOk "folder";
  let postgresqlTableset :=
    if (ok : bool) then
      payload.set_Folder
        (Some (datafactory.DatasetFolder.mk (Some (pluginsdk.as_string v))))
        postgresqlTableset
    else postgresqlTableset in
  '(v, ok) ← run.GetOk "parameters";
  let postgresqlTableset :=
    if (ok : bool) then
      payload.set_Parameters (expandDataFactoryParameters (pluginsdk.as_map v))
        postgresqlTableset
    else postgresqlTableset in
  '(v, ok) ← run.GetOk "annotations";
  let postgresqlTableset :=
    if (ok : bool) then
      payload.set_Annotations (Some (pluginsdk.as_list v)) postgresqlTableset
    else postgresqlTableset in
  '(v, ok) ← run.GetOk "additional_properties";
  let postgresqlTableset :=
    if (ok : bool) then
      payload.set_AdditionalProperties (pluginsdk.as_map v) postgresqlTableset
    else postgresqlTableset in
  '(v, ok) ← run.GetOk "schema_column";
  let postgresqlTableset :=
    if (ok : bool) then
      payload.set_Structure (expandDataFactoryDatasetStructure (pluginsdk.as_list v))
        postgresqlTableset
    else postgresqlTableset in
  let datasetType := datafactory.TypeBasicDatasetTypePostgreSQLTable in
  mret (datafactory.DatasetResource.mk (autorest.Response.mk None)
          (Some (datafactory.IsRelationalTableDataset postgresqlTableset))
          None None (Some datasetType) None).

(** The handler: the three stretches, then lines 245 to 251. *)
Definition resourceDataFactoryDatasetPostgreSQLCreateUpdate : Handler := fun meta =>
  let client := clients.DataFactory.DatasetClient (clients.Client.DataFactory meta) in
  id ← resolveDataSetId meta;
  checkForExisting meta id;;
  dataset ← expandDataset;
  '(_, err) ← run.CreateOrUpdate client (parse.DataSetId.ResourceGroup id)
                (parse.DataSetId.FactoryName id) (parse.DataSetId.Name id) dataset "";
  match err with
  | Some e => run.return_ (Some (CreatingUpdating id e))
  | None => mret tt
  end;;
  run.SetId (parse.DataSetId_ID provider id);;
  resourceDataFactoryDatasetPostgreSQLRead meta.

Definition resourceDataFactoryDatasetPostgreSQLDelete : Handler := fun meta =>
  let client := clients.DataFactory.DatasetClient (clients.Client.DataFactory meta) in
  input ← run.Id;
  match parse.DataSetID provider input with
  | inl err => run.return_ (Some (ParseFailure err))
  | inr id =>
    '(response, err) ← run.Delete client (parse.DataSetId.ResourceGroup id)
                         (parse.DataSetId.FactoryName id) (parse.DataSetId.Name id);
    match err with
    | Some e =>
        if negb (utils.ResponseWasNotFound response)
        then run.return_ (Some (Deleting id e))
        else mret tt
    | None => mret tt
    end;;
    run.return_ None
  end.

(** The descriptor.  A schema is written
    [mkSchema Type Required Optional Computed ForceNew ValidateFunc
     Deprecated ExactlyOneOf Elem]. *)
Definition resourceDataFactoryDatasetPostgreSQL : pluginsdk.Resource.t Handler :=
  pluginsdk.Resource.mk
    (Some resourceDataFactoryDatasetPostgreSQLCreateUpdate)
    (Some resourceDataFactoryDatasetPostgreSQLRead)
    (Some resourceDataFactoryDatasetPostgreSQLCreateUpdate)
    (Some resourceDataFactoryDatasetPostgreSQLDelete)
    (pluginsdk.ImporterValidatingResourceId (fun id =>
       match parse.DataSetID provider id with
       | inl err => Some (ParseFailure err)
       | inr _ => None
       end))
    (Some (pluginsdk.ResourceTimeout.mk
             (pluginsdk.DefaultTimeout (30 * time.Minute)%Z)
             (pluginsdk.DefaultTimeout (5 * time.Minute)%Z)
             (pluginsdk.DefaultTimeout (30 * time.Minute)%Z)
             (pluginsdk.DefaultTimeout (30 * time.Minute)%Z)))
    [ ("name",
       pluginsdk.mkSchema pluginsdk.TypeString true false false true
         (Some validate_LinkedServiceDatasetName) "" [] None);
      ("data_factory_name",
       pluginsdk.mkSchema pluginsdk.TypeString false true true true
         (Some validate_DataFactoryName)
         "`data_factory_name` is deprecated in favour of `data_factory_id` and will be removed in version 3.0 of the AzureRM provider"
         ["data_factory_id"] None);
      ("data_factory_id",
       pluginsdk.mkSchema pluginsdk.TypeString false true true true
         (Some validate_DataFactoryID) "" ["data_factory_name"] None);
      ("resource_group_name", azure_SchemaResourceGroupNameDiffSuppress);
      ("linked_service_name",
       pluginsdk.mkSchema pluginsdk.TypeString true false false false
         (Some validation_StringIsNotEmpty) "" [] None);
      ("table_name",
       pluginsdk.mkSchema pluginsdk.TypeString false true false false
         (Some validation_StringIsNotEmpty) "" [] None);
      ("parameters",
       pluginsdk.mkSchema pluginsdk.TypeMap false true false false None "" []
         (Some (pluginsdk.ElemSchema (pluginsdk.schema_of_type pluginsdk.TypeString))));
      ("description",
       pluginsdk.mkSchema pluginsdk.TypeString false true false false
         (Some validation_StringIsNotEmpty) "" [] None);
      ("annotations",
       pluginsdk.mkSchema pluginsdk.TypeList false true false false None "" []
         (Some (pluginsdk.ElemSchema (pluginsdk.schema_of_type pluginsdk.TypeString))));
      ("folder",
       pluginsdk.mkSchema pluginsdk.TypeString false true false false
         (Some validation_StringIsNotEmpty) "" [] None);
      ("additional_properties",
       pluginsdk.mkSchema pluginsdk.TypeMap false true false false None "" []
         (Some (pluginsdk.ElemSchema (pluginsdk.schema_of_type pluginsdk.TypeString))));
      ("schema_column",
       pluginsdk.mkSchema pluginsdk.TypeList false true false false None "" []
         (Some (pluginsdk.ElemResource
            [ ("name",
               pluginsdk.mkSchema pluginsdk.TypeString true false false false
                 (Some validation_StringIsNotEmpty) "" [] None);
              ("type",
               pluginsdk.mkSchema pluginsdk.TypeString false true false false
                 (Some (validation_StringInSlice
                    [ "Byte"; "Byte[]"; "Boolean"; "Date"; "DateTime";
                      "DateTimeOffset"; "Decimal"; "Double"; "Guid"; "Int16";
                      "Int32"; "Int64"; "Single"; "String"; "TimeSpan" ] false))
                 "" [] None);
              ("description",
               pluginsdk.mkSchema pluginsdk.TypeString false true false false
                 (Some validation_StringIsNotEmpty) "" [] None) ]))) ].

(** * Properties *)

(** ** Identifiers: splitting what was joined *)

Lemma split_slash_segment (a : string) :
  parse.no_slash a = true -> parse.split_slash a = [a].
Proof.
  induction a as [|c a IH]; simpl; [reflexivity|].
  intros H. apply andb_prop in H as [Hc Ha].
  apply negb_true_iff in Hc. rewrite Hc, (IH Ha). reflexivity.
Qed.

Lemma split_slash_cons (a rest : string) :
  parse.no_slash a = true ->
  parse.split_slash (a +:+ String "/" rest) = a :: parse.split_slash rest.
Proof.
  induction a as [|c a IH]; simpl; [reflexivity|].
  intros H. apply andb_prop in H as [Hc Ha].
  apply negb_true_iff in Hc. rewrite Hc, (IH Ha). reflexivity.
Qed.

Lemma split_join_slash (segments : list string) :
  segments <> [] ->
  forallb parse.no_slash segments = true ->
  parse.split_slash (parse.join_slash segments) = segments.
Proof.
  induction segments as [|a rest IH]; [congruence|].
  intros _ H. simpl in H. apply andb_prop in H as [Ha Hrest].
  destruct rest as [|b rest].
  - simpl. apply split_slash_segment, Ha.
  - change (parse.join_slash (a :: b :: rest))
      with (a +:+ String "/" (parse.join_slash (b :: rest))).
    rewrite (split_slash_cons _ _ Ha), IH; [reflexivity|discriminate|exact Hrest].
Qed.

Lemma plain_no_slash (s : string) :
  parse.plain s = true -> parse.no_slash s = true.
Proof.
  induction s as [|c s IH]; simpl; [reflexivity|].
  intros H. apply andb_prop in H as [Hc Hs]. rewrite (IH Hs), andb_true_r.
  destruct (Ascii.eqb_spec c "/") as [->|_]; [discriminate Hc|reflexivity].
Qed.

Lemma valid_segment_no_slash (s : string) :
  parse.valid_segment s = true -> parse.no_slash s = true.
Proof.
  unfold parse.valid_segment. intros H. apply andb_prop in H as [_ H].
  apply plain_no_slash, H.
Qed.

Lemma valid_segment_not_empty (s : string) :
  parse.valid_segment s = true -> String.eqb s "" = false.
Proof.
  unfold parse.valid_segment. intros H. apply andb_prop in H as [H _].
  apply negb_true_iff in H. exact H.
Qed.

Lemma DataSetId_ID_segments (id : parse.DataSetId.t) :
  parse.DataSetId_ID provider id =
  parse.join_slash
    [ ""; "subscriptions"; parse.DataSetId.SubscriptionId id;
      "resourceGroups"; parse.DataSetId.ResourceGroup id;
      "providers"; provider;
      "factories"; parse.DataSetId.FactoryName id;
      "datasets"; parse.DataSetId.Name id ].
Proof. reflexivity. Qed.

Lemma DataFactoryId_ID_segments (id : parse.DataFactoryId.t) :
  parse.DataFactoryId_ID provider id =
  parse.join_slash
    [ ""; "subscriptions"; parse.DataFactoryId.SubscriptionId id;
      "resourceGroups"; parse.DataFactoryId.ResourceGroup id;
      "providers"; provider;
      "factories"; parse.DataFactoryId.FactoryName id ].
Proof. reflexivity. Qed.

(** C2. An identifier made by [NewDataSetID] from a subscription, a
    resource group, a factory name and a dataset name that are valid
    components (not empty, of plain characters), rendered by [ID()] and
    parsed by [DataSetID], gives back exactly the four components: the
    parsed identifier holds the subscription, the resource group, the
    factory name and the dataset name that went in. *)
Theorem DataSetID_round_trip (subscriptionId resourceGroup factoryName name : string) :
  parse.no_slash provider = true ->
  parse.valid_segment subscriptionId = true ->
  parse.valid_segment resourceGroup = true ->
  parse.valid_segment factoryName = true ->
  parse.valid_segment name = true ->
  parse.DataSetID provider
    (parse.DataSetId_ID provider
       (parse.NewDataSetID subscriptionId resourceGroup factoryName name))
  = inr (parse.DataSetId.mk subscriptionId resourceGroup factoryName name).
Proof.
  intros Hp Hs Hr Hf Hn.
  unfold parse.DataSetID. rewrite DataSetId_ID_segments.
  rewrite split_join_slash; [|discriminate|].
  - cbn [parse.NewDataSetID parse.DataSetId.SubscriptionId
         parse.DataSetId.ResourceGroup parse.DataSetId.FactoryName
         parse.DataSetId.Name parse.strings_eqb parse.first_empty].
    rewrite (String.eqb_refl provider).
    rewrite (valid_segment_not_empty _ Hs), (valid_segment_not_empty _ Hr),
      (valid_segment_not_empty _ Hf), (valid_segment_not_empty _ Hn).
    reflexivity.
  - cbn [parse.NewDataSetID parse.DataSetId.SubscriptionId
         parse.DataSetId.ResourceGroup parse.DataSetId.FactoryName
         parse.DataSetId.Name forallb].
    rewrite Hp, (valid_segment_no_slash _ Hs), (valid_segment_no_slash _ Hr),
      (valid_segment_no_slash _ Hf), (valid_segment_no_slash _ Hn).
    reflexivity.
Qed.

(** The same for the identifier of the factory, which the read handler
    writes into [data_factory_id] and the create/update handler reads back. *)
Lemma DataFactoryID_round_trip (subscriptionId resourceGroup factoryName : string) :
  parse.no_slash provider = true ->
  parse.valid_segment subscriptionId = true ->
  parse.valid_segment resourceGroup = true ->
  parse.valid_segment factoryName = true ->
  parse.DataFactoryID provider
    (parse.DataFactoryId_ID provider
       (parse.NewDataFactoryID subscriptionId resourceGroup factoryName))
  = inr (parse.NewDataFactoryID subscriptionId resourceGroup factoryName).
Proof.
  intros Hp Hs Hr Hf.
  unfold parse.DataFactoryID. rewrite DataFactoryId_ID_segments.
  rewrite split_join_slash; [|discriminate|].
  - cbn [parse.NewDataFactoryID parse.DataFactoryId.SubscriptionId
         parse.DataFactoryId.ResourceGroup parse.DataFactoryId.FactoryName
         parse.strings_eqb parse.first_empty].
    rewrite (String.eqb_refl provider).
    rewrite (valid_segment_not_empty _ Hs), (valid_segment_not_empty _ Hr),
      (valid_segment_not_empty _ Hf).
    reflexivity.
  - cbn [parse.NewDataFactoryID parse.DataFactoryId.SubscriptionId
         parse.DataFactoryId.ResourceGroup parse.DataFactoryId.FactoryName forallb].
    rewrite Hp, (valid_segment_no_slash _ Hs), (valid_segment_no_slash _ Hr),
      (valid_segment_no_slash _ Hf).
    reflexivity.
Qed.

(** ** Running the handlers *)

Local Abbreviation client_of meta :=
  (clients.DataFactory.DatasetClient (clients.Client.DataFactory meta)).

Ltac unfold_run :=
  unfold run.handler, mbind, M_bind, mret, M_ret, run.bind, run.ret,
    run.return_, run.panic, run.deref, run.Id, run.SetId, run.IsNewResource,
    run.GetString, run.GetOk, run.Set_, run.Get, run.CreateOrUpdate, run.Delete.

(** What a handler leaves is what its body leaves. *)
Lemma handler_state (m : run.M W Empty_set) (s : run.State W) :
  snd (run.handler m s) = snd (m s).
Proof.
  unfold run.handler. destruct (m s) as [[e|err|] s']; [destruct e| |]; reflexivity.
Qed.

(** ** The read handler *)

(** C3. When the identifier parses and the fetch fails with a not-found
    response, the read handler sets the persistent key to the empty string,
    which tells the host runtime that the entity is gone, and returns
    [nil]; the fetch is its only call. *)
Theorem Read_not_found_clears_id
  (meta : clients.Client.t W) (d : pluginsdk.ResourceData.t) (w w' : W)
  (log : list Call) (id : parse.DataSetId.t)
  (resp : datafactory.DatasetResource.t) (e : error) :
  parse.DataSetID provider (pluginsdk.Id d) = inr id ->
  datafactory.DatasetsClient.Get (client_of meta) w
    (parse.DataSetId.ResourceGroup id) (parse.DataSetId.FactoryName id)
    (parse.DataSetId.Name id) "" = ((resp, Some e), w') ->
  utils.ResponseWasNotFound (datafactory.DatasetResource.Response resp) = true ->
  run.handler (resourceDataFactoryDatasetPostgreSQLRead meta) (run.mkState d w log)
  = (run.Returned None,
     run.mkState (pluginsdk.SetId "" d) w'
       (log ++ [CallGet (parse.DataSetId.ResourceGroup id)
                  (parse.DataSetId.FactoryName id) (parse.DataSetId.Name id) ""]))
  /\ pluginsdk.Id (pluginsdk.SetId "" d) = "".
Proof.
  intros Hid Hget H404. split; [|reflexivity].
  unfold resourceDataFactoryDatasetPostgreSQLRead. unfold_run. cbn.
  rewrite Hid. cbn. rewrite Hget. cbn. rewrite H404. reflexivity.
Qed.


(** X20. A response of another variant that carries no resource type
    makes the handler panic on [*resp.Type]. *)
Lemma Read_other_variant_without_type
  (meta : clients.Client.t W) (d : pluginsdk.ResourceData.t) (w w' : W)
  (log : list Call) (id : parse.DataSetId.t)
  (resp : datafactory.DatasetResource.t) (properties : datafactory.BasicDataset) :
  parse.DataSetID provider (pluginsdk.Id d) = inr id ->
  datafactory.DatasetsClient.Get (client_of meta) w
    (parse.DataSetId.ResourceGroup id) (parse.DataSetId.FactoryName id)
    (parse.DataSetId.Name id) "" = ((resp, None), w') ->
  datafactory.DatasetResource.Properties resp = Some properties ->
  datafactory.AsRelationalTableDataset properties = None ->
  datafactory.DatasetResource.Type_ resp = None ->
  fst (run.handler (resourceDataFactoryDatasetPostgreSQLRead meta)
         (run.mkState d w log)) = run.Panicked.
Proof.
  intros Hid Hget Hprops Hvariant Htype.
  destruct properties as [r|tag]; [discriminate Hvariant|].
  unfold resourceDataFactoryDatasetPostgreSQLRead. unfold_run. cbn.
  rewrite Hid. cbn. rewrite Hget. cbn. rewrite Hprops. cbn. rewrite Htype.
  reflexivity.
Qed.

(** ** The delete handler *)

(** C4. When the identifier parses, the delete handler returns [nil] if
    the delete operation fails with a not-found response (and if it does
    not fail), and returns the error wrapped with the identifier for every
    other failure. *)
Theorem Delete_not_found_is_success
  (meta : clients.Client.t W) (d : pluginsdk.ResourceData.t) (w w' : W)
  (log : list Call) (id : parse.DataSetId.t)
  (response : autorest.Response.t) (err : option error) :
  parse.DataSetID provider (pluginsdk.Id d) = inr id ->
  datafactory.DatasetsClient.Delete (client_of meta) w
    (parse.DataSetId.ResourceGroup id) (parse.DataSetId.FactoryName id)
    (parse.DataSetId.Name id) = ((response, err), w') ->
  run.handler (resourceDataFactoryDatasetPostgreSQLDelete meta) (run.mkState d w log)
  = (run.Returned
       match err with
       | Some e =>
           if utils.ResponseWasNotFound response then None
           else Some (Deleting id e)
       | None => None
       end,
     run.mkState d w'
       (log ++ [CallDelete (parse.DataSetId.ResourceGroup id)
                  (parse.DataSetId.FactoryName id) (parse.DataSetId.Name id)])).
Proof.
  intros Hid Hdelete.
  unfold resourceDataFactoryDatasetPostgreSQLDelete. unfold_run. cbn.
  rewrite Hid. cbn. rewrite Hdelete. cbn.
  destruct err as [e|]; [|reflexivity].
  destruct (utils.ResponseWasNotFound response); reflexivity.
Qed.

(** ** Fields the read handler leaves alone *)

Lemma Set__other_field (key k : string) (value : any) (d : pluginsdk.ResourceData.t) :
  key <> k ->
  pluginsdk.ResourceData.values (fst (pluginsdk.Set_ schema_check key value d)) !! k
  = pluginsdk.ResourceData.values d !! k.
Proof.
  intros Hne. unfold pluginsdk.Set_.
  destruct (schema_check key value); cbn; [reflexivity|].
  apply lookup_insert_ne, Hne.
Qed.

Lemma preserves_ret {X A} (observe : run.State W -> X) (a : A) :
  run.preserves observe (mret a : run.M W A).
Proof. intros s. reflexivity. Qed.

Lemma preserves_return {X A} (observe : run.State W -> X) (err : option error) :
  run.preserves observe (run.return_ err : run.M W A).
Proof. intros s. reflexivity. Qed.

Lemma preserves_bind {X A B} (observe : run.State W -> X)
  (m : run.M W A) (f : A -> run.M W B) :
  run.preserves observe m -> (forall a, run.preserves observe (f a)) ->
  run.preserves observe (m ≫= f).
Proof.
  intros Hm Hf s. specialize (Hm s).
  unfold mbind, M_bind, run.bind. destruct (m s) as [[a|err|] s']; cbn in *.
  - rewrite (Hf a s'). exact Hm.
  - exact Hm.
  - exact Hm.
Qed.

Lemma Set__preserves_field (k key : string) (value : any) :
  key <> k ->
  run.preserves (run.field k) (run.Set_ schema_check key value : run.M W _).
Proof. intros Hne s. cbn. apply Set__other_field, Hne. Qed.

Lemma Set__preserves_calls (key : string) (value : any) :
  run.preserves run.calls (run.Set_ schema_check key value : run.M W _).
Proof. intros s. reflexivity. Qed.

Ltac preserves_step :=
  first
    [ apply preserves_ret
    | apply preserves_return
    | apply Set__preserves_calls
    | apply Set__preserves_field; discriminate
    | apply preserves_bind; [|intros ?]
    | match goal with
      | |- run.preserves _ (match ?x with _ => _ end) => destruct x
      end ].

Lemma setRelationalTableFields_keeps_description
  (postgresqlTable : datafactory.RelationalTableDataset.t) :
  datafactory.upstream.description postgresqlTable = None ->
  run.preserves (run.field "description") (setRelationalTableFields postgresqlTable).
Proof.
  unfold datafactory.upstream.description, setRelationalTableFields. intros ->.
  repeat preserves_step.
Qed.

Lemma setRelationalTableFields_keeps_linked_service_name
  (postgresqlTable : datafactory.RelationalTableDataset.t) :
  datafactory.upstream.linked_service_name postgresqlTable = None ->
  run.preserves (run.field "linked_service_name") (setRelationalTableFields postgresqlTable).
Proof.
  unfold datafactory.upstream.linked_service_name, setRelationalTableFields.
  intros H.
  destruct (datafactory.RelationalTableDataset.LinkedServiceName postgresqlTable)
    as [linkedService|]; [rewrite H|]; repeat preserves_step.
Qed.

Lemma setRelationalTableFields_keeps_table_name
  (postgresqlTable : datafactory.RelationalTableDataset.t) :
  datafactory.upstream.table_name postgresqlTable = None ->
  run.preserves (run.field "table_name") (setRelationalTableFields postgresqlTable).
Proof.
  unfold datafactory.upstream.table_name, setRelationalTableFields.
  intros H.
  destruct (datafactory.RelationalTableDataset.RelationalTableDatasetTypeProperties
              postgresqlTable)
    as [properties|];
    [destruct (datafactory.RelationalTableDatasetTypeProperties.TableName properties);
     try discriminate H|];
    repeat preserves_step.
Qed.

Lemma setRelationalTableFields_keeps_folder
  (postgresqlTable : datafactory.RelationalTableDataset.t) :
  datafactory.upstream.folder postgresqlTable = None ->
  run.preserves (run.field "folder") (setRelationalTableFields postgresqlTable).
Proof.
  unfold datafactory.upstream.folder, setRelationalTableFields.
  intros H.
  destruct (datafactory.RelationalTableDataset.Folder postgresqlTable)
    as [folder|]; [rewrite H|]; repeat preserves_step.
Qed.

(** Up to the fields of the variant, a read that finds a relational-table
    dataset writes the four fields taken from the identifier. *)
Lemma Read_relational_table_field
  (meta : clients.Client.t W) (d : pluginsdk.ResourceData.t) (w w' : W)
  (log : list Call) (id : parse.DataSetId.t)
  (resp : datafactory.DatasetResource.t)
  (postgresqlTable : datafactory.RelationalTableDataset.t) (k : string) :
  parse.DataSetID provider (pluginsdk.Id d) = inr id ->
  datafactory.DatasetsClient.Get (client_of meta) w
    (parse.DataSetId.ResourceGroup id) (parse.DataSetId.FactoryName id)
    (parse.DataSetId.Name id) "" = ((resp, None), w') ->
  datafactory.DatasetResource.Properties resp
  = Some (datafactory.IsRelationalTableDataset postgresqlTable) ->
  "name" <> k -> "resource_group_name" <> k ->
  "data_factory_name" <> k -> "data_factory_id" <> k ->
  run.preserves (run.field k) (setRelationalTableFields postgresqlTable) ->
  pluginsdk.ResourceData.values
    (run.d (snd (run.handler (resourceDataFactoryDatasetPostgreSQLRead meta)
                   (run.mkState d w log)))) !! k
  = pluginsdk.ResourceData.values d !! k.
Proof.
  intros Hid Hget Hprops H1 H2 H3 H4 Hkeeps.
  rewrite handler_state.
  unfold resourceDataFactoryDatasetPostgreSQLRead. unfold_run.
  cbn -[setRelationalTableFields pluginsdk.Set_].
  rewrite Hid. cbn -[setRelationalTableFields pluginsdk.Set_].
  rewrite Hget. cbn -[setRelationalTableFields pluginsdk.Set_].
  rewrite Hprops. cbn -[setRelationalTableFields pluginsdk.Set_].
  change (pluginsdk.ResourceData.values (run.d ?s) !! k) with (run.field k s).
  rewrite (Hkeeps _). unfold run.field. cbn -[pluginsdk.Set_].
  rewrite !Set__other_field by assumption. reflexivity.
Qed.

(** ** The calls a handler issues *)

Lemma setRelationalTableFields_silent
  (postgresqlTable : datafactory.RelationalTableDataset.t) :
  run.preserves run.calls (setRelationalTableFields postgresqlTable).
Proof. unfold setRelationalTableFields. repeat preserves_step. Qed.

(** The read handler only adds to the log. *)
Lemma Read_appends (meta : clients.Client.t W) (s : run.State W) :
  exists rest : list Call,
    run.calls (snd (run.handler (resourceDataFactoryDatasetPostgreSQLRead meta) s))
    = (run.calls s ++ rest)%list.
Proof.
  rewrite handler_state. destruct s as [d w log].
  unfold resourceDataFactoryDatasetPostgreSQLRead. unfold_run.
  cbn -[setRelationalTableFields pluginsdk.Set_].
  destruct (parse.DataSetID provider (pluginsdk.Id d)) as [e|id];
    cbn -[setRelationalTableFields pluginsdk.Set_].
  { exists []. symmetry. apply app_nil_r. }
  destruct (datafactory.DatasetsClient.Get _ w _ _ _ _) as [[resp err] w'].
  cbn -[setRelationalTableFields pluginsdk.Set_].
  destruct err as [e|]; cbn -[setRelationalTableFields pluginsdk.Set_].
  { destruct (utils.ResponseWasNotFound _); eexists; reflexivity. }
  destruct (datafactory.DatasetResource.Properties resp) as [[r|tag]|];
    cbn -[setRelationalTableFields pluginsdk.Set_].
  - rewrite (setRelationalTableFields_silent r _). eexists; reflexivity.
  - destruct (datafactory.DatasetResource.Type_ resp); eexists; reflexivity.
  - eexists; reflexivity.
Qed.

(** ** The create/update handler *)

(** Resolving the identifier reads the declared state and nothing else. *)
Lemma resolveDataSetId_state (meta : clients.Client.t W) (s s' : run.State W)
  (r : run.Step parse.DataSetId.t) :
  resolveDataSetId meta s = (r, s') -> s' = s.
Proof.
  unfold resolveDataSetId. unfold_run. destruct s as [d w log]. cbn.
  destruct (String.eqb (pluginsdk.GetString d "data_factory_name") ""); cbn;
    destruct (String.eqb (pluginsdk.GetString d "data_factory_id") ""); cbn;
    try destruct (parse.DataFactoryID provider _); cbn;
    intros H; inversion H; reflexivity.
Qed.

(** The payload is always built, and building it reads the declared state
    and nothing else. *)
Lemma expandDataset_total (s : run.State W) :
  exists dataset : datafactory.DatasetResource.t,
    expandDataset s = (run.Next dataset, s).
Proof.
  unfold expandDataset. unfold_run. cbn -[pluginsdk.GetOk].
  repeat match goal with
         | |- context [pluginsdk.GetOk ?d ?k] =>
             destruct (pluginsdk.GetOk d k) as [? ?]
         end.
  eexists. reflexivity.
Qed.

(** The probe issues the fetch on a new resource and nothing otherwise. *)
Lemma checkForExisting_calls (meta : clients.Client.t W) (id : parse.DataSetId.t)
  (s : run.State W) :
  checkForExisting meta id s = (run.Next tt, s)
  \/ run.calls (snd (checkForExisting meta id s))
     = (run.calls s
          ++ [CallGet (parse.DataSetId.ResourceGroup id)
                (parse.DataSetId.FactoryName id) (parse.DataSetId.Name id) ""])%list.
Proof.
  destruct s as [d w log]. unfold checkForExisting. unfold_run. cbn.
  destruct (pluginsdk.IsNewResource d); cbn; [right|left; reflexivity].
  destruct (datafactory.DatasetsClient.Get _ w _ _ _ _) as [[existing err] w'].
  cbn. destruct err as [e|]; cbn;
    [destruct (utils.ResponseWasNotFound _); cbn; [|reflexivity]|];
    destruct (datafactory.DatasetResource.ID existing) as [existingID|]; cbn;
    try destruct (String.eqb existingID ""); reflexivity.
Qed.

(** Past the probe, the handler calls [CreateOrUpdate]. *)
Lemma CreateUpdate_submits (meta : clients.Client.t W) (id : parse.DataSetId.t)
  (s s1 : run.State W) :
  resolveDataSetId meta s = (run.Next id, s) ->
  checkForExisting meta id s = (run.Next tt, s1) ->
  exists (dataset : datafactory.DatasetResource.t) (rest : list Call),
    run.calls (snd (run.handler (resourceDataFactoryDatasetPostgreSQLCreateUpdate meta) s))
    = (run.calls s1
         ++ CallCreateOrUpdate (parse.DataSetId.ResourceGroup id)
              (parse.DataSetId.FactoryName id) (parse.DataSetId.Name id) dataset ""
         :: rest)%list.
Proof.
  intros Hresolve Hcheck.
  destruct (expandDataset_total s1) as [dataset Hdataset].
  exists dataset.
  rewrite handler_state.
  unfold resourceDataFactoryDatasetPostgreSQLCreateUpdate.
  unfold mbind, M_bind, run.bind. cbv beta zeta.
  rewrite Hresolve, Hcheck, Hdataset.
  unfold run.CreateOrUpdate, run.SetId, run.return_, mret, M_ret, run.ret.
  cbn -[resourceDataFactoryDatasetPostgreSQLRead].
  destruct (datafactory.DatasetsClient.CreateOrUpdate _ _ _ _ _ _ _)
    as [[r [e'|]] w''];
    cbn -[resourceDataFactoryDatasetPostgreSQLRead].
  - exists []. reflexivity.
  - match goal with
    | |- context [resourceDataFactoryDatasetPostgreSQLRead meta ?s] =>
        destruct (Read_appends meta s) as [rest Hrest];
        rewrite handler_state in Hrest; rewrite Hrest
    end.
    exists rest. cbn. rewrite <- !app_assoc. reflexivity.
Qed.

(** Once the identifier is resolved, the handler calls the platform. *)
Lemma CreateUpdate_calls_platform (meta : clients.Client.t W)
  (id : parse.DataSetId.t) (s : run.State W) :
  resolveDataSetId meta s = (run.Next id, s) ->
  exists (c : Call) (rest : list Call),
    run.calls (snd (run.handler (resourceDataFactoryDatasetPostgreSQLCreateUpdate meta) s))
    = (run.calls s ++ c :: rest)%list.
Proof.
  intros Hresolve.
  destruct (checkForExisting_calls meta id s) as [Hcheck|Hcalls].
  - destruct (CreateUpdate_submits meta id s s Hresolve Hcheck) as (dataset & rest & H).
    eauto.
  - destruct (checkForExisting meta id s) as [[[]|err|] s1] eqn:Hcheck; cbn in Hcalls.
    + destruct (CreateUpdate_submits meta id s s1 Hresolve Hcheck)
        as (dataset & rest & H).
      rewrite H, Hcalls, <- app_assoc. eauto.
    + rewrite handler_state.
      unfold resourceDataFactoryDatasetPostgreSQLCreateUpdate.
      unfold mbind, M_bind, run.bind. cbv beta zeta. rewrite Hresolve, Hcheck.
      cbn. rewrite Hcalls. eauto.
    + rewrite handler_state.
      unfold resourceDataFactoryDatasetPostgreSQLCreateUpdate.
      unfold mbind, M_bind, run.bind. cbv beta zeta. rewrite Hresolve, Hcheck.
      cbn. rewrite Hcalls. eauto.
Qed.

(** C6. The factory identifier is a nil pointer at line 182 exactly when
    [data_factory_name] and [data_factory_id] are both the empty string:
    the dereference panics then and only then, and in that state the
    create/update handler panics before it has called the platform or
    touched the declared state. *)
Theorem CreateUpdate_nil_factory_id
  (meta : clients.Client.t W) (d : pluginsdk.ResourceData.t) (w : W)
  (log : list Call) :
  (fst (resolveDataSetId meta (run.mkState d w log)) = run.Panic
   <-> pluginsdk.GetString d "data_factory_name" = ""
       /\ pluginsdk.GetString d "data_factory_id" = "")
  /\ (pluginsdk.GetString d "data_factory_name" = "" ->
      pluginsdk.GetString d "data_factory_id" = "" ->
      run.handler (resourceDataFactoryDatasetPostgreSQLCreateUpdate meta)
        (run.mkState d w log)
      = (run.Panicked, run.mkState d w log)).
Proof.
  split.
  - unfold resolveDataSetId. unfold_run. cbn.
    destruct (String.eqb_spec (pluginsdk.GetString d "data_factory_name") "")
      as [Hname|Hname]; cbn;
      destruct (String.eqb_spec (pluginsdk.GetString d "data_factory_id") "")
        as [Hid|Hid]; cbn;
      try destruct (parse.DataFactoryID provider _); cbn;
      split; try discriminate; tauto.
  - intros Hname Hid.
    unfold resourceDataFactoryDatasetPostgreSQLCreateUpdate, resolveDataSetId.
    unfold_run. cbn -[pluginsdk.GetString]. rewrite Hname. cbn -[pluginsdk.GetString].
    rewrite Hid. reflexivity.
Qed.

(** C1. On a new resource whose identifier resolves, a probe that comes
    back (without error, or with a not-found response) holding an entity
    with a non-empty ID makes the create/update handler return the
    already-exists error for that ID, the probe being the only call it has
    issued; a probe that fails with a not-found response and holds no ID
    is passed over, and the handler goes on to call [CreateOrUpdate]; a
    probe that fails in any other way ends the handler with that error
    wrapped, the probe again being its only call. *)
Theorem CreateUpdate_existing_is_conflict
  (meta : clients.Client.t W) (d : pluginsdk.ResourceData.t) (w w' : W)
  (log : list Call) (id : parse.DataSetId.t)
  (existing : datafactory.DatasetResource.t) (err : option error) :
  resolveDataSetId meta (run.mkState d w log) = (run.Next id, run.mkState d w log) ->
  pluginsdk.IsNewResource d = true ->
  datafactory.DatasetsClient.Get (client_of meta) w
    (parse.DataSetId.ResourceGroup id) (parse.DataSetId.FactoryName id)
    (parse.DataSetId.Name id) "" = ((existing, err), w') ->
  let probe :=
    CallGet (parse.DataSetId.ResourceGroup id) (parse.DataSetId.FactoryName id)
      (parse.DataSetId.Name id) "" in
  (forall existingID : string,
     datafactory.DatasetResource.ID existing = Some existingID ->
     existingID <> "" ->
     err = None
     \/ utils.ResponseWasNotFound (datafactory.DatasetResource.Response existing)
        = true ->
     run.handler (resourceDataFactoryDatasetPostgreSQLCreateUpdate meta)
       (run.mkState d w log)
     = (run.Returned
          (Some (ImportAsExists "azurerm_data_factory_dataset_postgresql" existingID)),
        run.mkState d w' (log ++ [probe]))
     /\ filter (fun c => is_mutating c) [probe] = [])
  /\ (forall e : error,
       err = Some e ->
       utils.ResponseWasNotFound (datafactory.DatasetResource.Response existing)
       = true ->
       datafactory.DatasetResource.ID existing = None
       \/ datafactory.DatasetResource.ID existing = Some "" ->
       checkForExisting meta id (run.mkState d w log)
       = (run.Next tt, run.mkState d w' (log ++ [probe]))
       /\ exists (dataset : datafactory.DatasetResource.t) (rest : list Call),
            run.calls
              (snd (run.handler (resourceDataFactoryDatasetPostgreSQLCreateUpdate meta)
                      (run.mkState d w log)))
            = (log ++ probe
                 :: CallCreateOrUpdate (parse.DataSetId.ResourceGroup id)
                      (parse.DataSetId.FactoryName id) (parse.DataSetId.Name id)
                      dataset ""
                 :: rest)%list)
  /\ (forall e : error,
       err = Some e ->
       utils.ResponseWasNotFound (datafactory.DatasetResource.Response existing)
       = false ->
       run.handler (resourceDataFactoryDatasetPostgreSQLCreateUpdate meta)
         (run.mkState d w log)
       = (run.Returned (Some (CheckingForPresence id e)),
          run.mkState d w' (log ++ [probe]))).
Proof.
  intros Hresolve Hnew Hget probe.
  split; [|split].
  - intros existingID HID Hne Hprobe. split; [|reflexivity].
    unfold resourceDataFactoryDatasetPostgreSQLCreateUpdate, run.handler.
    unfold mbind, M_bind, run.bind. cbv beta zeta. rewrite Hresolve.
    unfold checkForExisting. unfold_run. cbn.
    rewrite Hnew. cbn. rewrite Hget. cbn.
    apply String.eqb_neq in Hne.
    destruct Hprobe as [-> | H404]; [|destruct err; [rewrite H404|]]; cbn;
      rewrite HID, Hne; reflexivity.
  - intros e -> H404 HID.
    assert (Hcheck : checkForExisting meta id (run.mkState d w log)
                     = (run.Next tt, run.mkState d w' (log ++ [probe]))).
    { unfold checkForExisting. unfold_run. cbn. rewrite Hnew. cbn.
      rewrite Hget. cbn. rewrite H404. cbn.
      destruct HID as [-> | ->]; reflexivity. }
    split; [exact Hcheck|].
    destruct (CreateUpdate_submits meta id _ _ Hresolve Hcheck)
      as (dataset & rest & Hcalls).
    exists dataset, rest. rewrite Hcalls. cbn. rewrite <- app_assoc. reflexivity.
  - intros e -> Hother.
    unfold resourceDataFactoryDatasetPostgreSQLCreateUpdate, run.handler.
    unfold mbind, M_bind, run.bind. cbv beta zeta. rewrite Hresolve.
    unfold checkForExisting. unfold_run. cbn.
    rewrite Hnew. cbn. rewrite Hget. cbn. rewrite Hother. reflexivity.
Qed.

(** C5, as the code has it.  The schema declares [data_factory_name] and
    [data_factory_id] [ExactlyOneOf] each other, which leaves the refusal
    of a configuration that supplies both to the host runtime.  The
    create/update handler makes no such check.  With [data_factory_id]
    not empty, whatever [data_factory_name] holds, the identifier is made
    from the parsed [data_factory_id] and the handler goes on to call the
    platform; it returns before any call only when [data_factory_id] does
    not parse. *)
Theorem CreateUpdate_data_factory_id_takes_precedence
  (meta : clients.Client.t W) (d : pluginsdk.ResourceData.t) (w : W)
  (log : list Call) :
  pluginsdk.GetString d "data_factory_id" <> "" ->
  let s := run.mkState d w log in
  let schema := pluginsdk.Resource.Schema resourceDataFactoryDatasetPostgreSQL in
  pluginsdk.ExactlyOneOf <$> pluginsdk.schema_lookup "data_factory_name" schema
  = Some ["data_factory_id"]
  /\ pluginsdk.ExactlyOneOf <$> pluginsdk.schema_lookup "data_factory_id" schema
     = Some ["data_factory_name"]
  /\ match parse.DataFactoryID provider (pluginsdk.GetString d "data_factory_id") with
     | inl e =>
         run.handler (resourceDataFactoryDatasetPostgreSQLCreateUpdate meta) s
         = (run.Returned (Some (ParseFailure e)), s)
     | inr factory =>
         resolveDataSetId meta s
         = (run.Next
              (parse.NewDataSetID
                 (datafactory.DatasetsClient.SubscriptionID (client_of meta))
                 (parse.DataFactoryId.ResourceGroup factory)
                 (parse.DataFactoryId.FactoryName factory)
                 (pluginsdk.GetString d "name")), s)
         /\ exists (c : Call) (rest : list Call),
              run.calls
                (snd (run.handler
                        (resourceDataFactoryDatasetPostgreSQLCreateUpdate meta) s))
              = (log ++ c :: rest)%list
     end.
Proof.
  intros Hid s schema. split; [reflexivity|]. split; [reflexivity|].
  assert (Hresolve :
    resolveDataSetId meta s
    = match parse.DataFactoryID provider (pluginsdk.GetString d "data_factory_id") with
      | inl e => (run.Return (Some (ParseFailure e)), s)
      | inr factory =>
          (run.Next
             (parse.NewDataSetID
                (datafactory.DatasetsClient.SubscriptionID (client_of meta))
                (parse.DataFactoryId.ResourceGroup factory)
                (parse.DataFactoryId.FactoryName factory)
                (pluginsdk.GetString d "name")), s)
      end).
  { unfold resolveDataSetId. unfold_run. cbn -[pluginsdk.GetString].
    apply String.eqb_neq in Hid.
    destruct (String.eqb (pluginsdk.GetString d "data_factory_name") "");
      cbn -[pluginsdk.GetString]; rewrite Hid; cbn -[pluginsdk.GetString];
      destruct (parse.DataFactoryID provider _); reflexivity. }
  destruct (parse.DataFactoryID provider _) as [e|factory].
  - unfold resourceDataFactoryDatasetPostgreSQLCreateUpdate, run.handler.
    unfold mbind, M_bind, run.bind. cbv beta zeta. rewrite Hresolve. reflexivity.
  - split; [exact Hresolve|].
    apply (CreateUpdate_calls_platform meta _ s Hresolve).
Qed.

(** C9. When the handler has got as far as its call of [CreateOrUpdate]
    with an identifier and a payload, and the call succeeds, the handler
    sets the persistent key to the identifier's [ID()] and ends as the
    read handler ends from there: same result, same final state.  The
    state handed to the read handler has the identifier's [ID()] as its
    persistent key, and the new-resource flag and the declared fields as
    they were before the key was set. *)
Theorem CreateUpdate_success_then_read
  (meta : clients.Client.t W) (s s1 : run.State W) (id : parse.DataSetId.t)
  (dataset r : datafactory.DatasetResource.t) (w2 : W) :
  resolveDataSetId meta s = (run.Next id, s) ->
  checkForExisting meta id s = (run.Next tt, s1) ->
  expandDataset s1 = (run.Next dataset, s1) ->
  datafactory.DatasetsClient.CreateOrUpdate (client_of meta) (run.world s1)
    (parse.DataSetId.ResourceGroup id) (parse.DataSetId.FactoryName id)
    (parse.DataSetId.Name id) dataset "" = ((r, None), w2) ->
  let adopted := pluginsdk.SetId (parse.DataSetId_ID provider id) (run.d s1) in
  run.handler (resourceDataFactoryDatasetPostgreSQLCreateUpdate meta) s
  = run.handler (resourceDataFactoryDatasetPostgreSQLRead meta)
      (run.mkState adopted w2
         (run.calls s1
            ++ [CallCreateOrUpdate (parse.DataSetId.ResourceGroup id)
                  (parse.DataSetId.FactoryName id) (parse.DataSetId.Name id)
                  dataset ""]))
  /\ pluginsdk.Id adopted = parse.DataSetId_ID provider id
  /\ pluginsdk.IsNewResource adopted = pluginsdk.IsNewResource (run.d s1)
  /\ pluginsdk.ResourceData.values adopted = pluginsdk.ResourceData.values (run.d s1).
Proof.
  intros Hresolve Hcheck Hdataset Hcreate adopted. subst adopted.
  split; [|repeat split].
  unfold resourceDataFactoryDatasetPostgreSQLCreateUpdate, run.handler.
  unfold mbind, M_bind, run.bind. cbv beta zeta.
  rewrite Hresolve, Hcheck, Hdataset.
  unfold run.CreateOrUpdate, run.SetId, run.return_, mret, M_ret, run.ret.
  cbn -[resourceDataFactoryDatasetPostgreSQLRead].
  rewrite Hcreate. reflexivity.
Qed.

(** ** The descriptor *)

(** C10. The descriptor declares a default timeout of 30 minutes for
    create, for update and for delete, and of 5 minutes for read; in
    nanoseconds, 1 800 000 000 000 and 300 000 000 000. *)
Theorem default_timeouts :
  let timeouts := pluginsdk.Resource.Timeouts resourceDataFactoryDatasetPostgreSQL in
  pluginsdk.ResourceTimeout.Create <$> timeouts = Some (Some (30 * time.Minute)%Z)
  /\ pluginsdk.ResourceTimeout.Update <$> timeouts = Some (Some (30 * time.Minute)%Z)
  /\ pluginsdk.ResourceTimeout.Delete <$> timeouts = Some (Some (30 * time.Minute)%Z)
  /\ pluginsdk.ResourceTimeout.Read <$> timeouts = Some (Some (5 * time.Minute)%Z)
  /\ (30 * time.Minute = 1800000000000)%Z
  /\ (5 * time.Minute = 300000000000)%Z.
Proof. repeat split. Qed.

(** * Further properties of the handlers *)

(** ** More rules for running a computation *)

Lemma preserves_field_unset (k : string) {A} (m : run.M W A) :
  (forall s, run.d (snd (m s)) = run.d s) -> run.preserves (run.field k) m.
Proof. intros H s. unfold run.field. rewrite H. reflexivity. Qed.

Lemma Set__preserves_key (key : string) (value : any) :
  run.preserves run.key (run.Set_ schema_check key value : run.M W _).
Proof.
  intros s. unfold run.key, run.Set_, pluginsdk.Set_. cbn.
  destruct (schema_check key value); reflexivity.
Qed.

Lemma preserves_deref {X A} (observe : run.State W -> X) (p : option A) :
  run.preserves observe (run.deref p : run.M W A).
Proof. intros s. destruct p; reflexivity. Qed.

Lemma returns_only_ret (Q : option error -> Prop) {A} (a : A) :
  run.returns_only Q (mret a : run.M W A).
Proof. intros s. exact I. Qed.

Lemma returns_only_return (Q : option error -> Prop) {A} (err : option error) :
  Q err -> run.returns_only Q (run.return_ err : run.M W A).
Proof. intros H s. exact H. Qed.

Lemma returns_only_bind (Q : option error -> Prop) {A B}
  (m : run.M W A) (f : A -> run.M W B) :
  run.returns_only Q m -> (forall a, run.returns_only Q (f a)) ->
  run.returns_only Q (m ≫= f).
Proof.
  intros Hm Hf s. specialize (Hm s).
  unfold mbind, M_bind, run.bind. destruct (m s) as [[a|err|] s']; cbn in *.
  - apply (Hf a s').
  - exact Hm.
  - exact I.
Qed.

Lemma returns_only_Set_ (Q : option error -> Prop) (key : string) (value : any) :
  run.returns_only Q (run.Set_ schema_check key value : run.M W _).
Proof. intros s. exact I. Qed.

Lemma returns_only_deref (Q : option error -> Prop) {A} (p : option A) :
  run.returns_only Q (run.deref p : run.M W A).
Proof. intros s. destruct p; exact I. Qed.

(** One step through a computation for [run.preserves] of a field that
    the hypotheses tell apart from the keys written. *)
Ltac frame_step :=
  first
    [ apply preserves_ret
    | apply preserves_return
    | apply preserves_deref
    | apply Set__preserves_key
    | apply Set__preserves_field; first [assumption | discriminate]
    | apply preserves_bind; [|intros ?]
    | match goal with
      | |- run.preserves _ (match ?x with _ => _ end) => destruct x
      end
    | (intros ?; reflexivity) ].

(** One step through a computation for [run.returns_only]. *)
Ltac returns_step :=
  first
    [ apply returns_only_ret
    | apply returns_only_Set_
    | apply returns_only_deref
    | apply returns_only_return; first [exact I | reflexivity]
    | apply returns_only_bind; [|intros ?]
    | match goal with
      | |- run.returns_only _ (match ?x with _ => _ end) => destruct x
      | |- run.returns_only _ (if ?x then _ else _) => destruct x
      end
    | (intros ?; exact I) ].

(** ** What the read handler writes, and what it leaves *)

(** The fields of the variant are the only ones the second half of the
    read handler writes. *)
Lemma setRelationalTableFields_frame
  (postgresqlTable : datafactory.RelationalTableDataset.t) (k : string) :
  "additional_properties" <> k -> "description" <> k -> "parameters" <> k ->
  "annotations" <> k -> "linked_service_name" <> k -> "table_name" <> k ->
  "folder" <> k -> "schema_column" <> k ->
  run.preserves (run.field k) (setRelationalTableFields postgresqlTable).
Proof.
  intros. unfold setRelationalTableFields. repeat frame_step.
Qed.

Lemma setRelationalTableFields_key
  (postgresqlTable : datafactory.RelationalTableDataset.t) :
  run.preserves run.key (setRelationalTableFields postgresqlTable).
Proof. unfold setRelationalTableFields. repeat frame_step. Qed.

Lemma setRelationalTableFields_returns
  (postgresqlTable : datafactory.RelationalTableDataset.t) :
  run.returns_only (nil_or is_read_error) (setRelationalTableFields postgresqlTable).
Proof. unfold setRelationalTableFields. repeat returns_step. Qed.

Lemma Read_preserves_field (meta : clients.Client.t W) (k : string) :
  "name" <> k -> "resource_group_name" <> k -> "data_factory_name" <> k ->
  "data_factory_id" <> k ->
  "additional_properties" <> k -> "description" <> k -> "parameters" <> k ->
  "annotations" <> k -> "linked_service_name" <> k -> "table_name" <> k ->
  "folder" <> k -> "schema_column" <> k ->
  run.preserves (run.field k) (resourceDataFactoryDatasetPostgreSQLRead meta).
Proof.
  intros. unfold resourceDataFactoryDatasetPostgreSQLRead. cbv zeta.
  repeat first
    [ apply setRelationalTableFields_frame; assumption
    | frame_step ].
Qed.

(** X3. The read handler writes declared fields only: a key that the
    schema of the descriptor does not declare holds after a read, however
    the read ends, what it held before. *)
Theorem Read_writes_declared_fields_only
  (meta : clients.Client.t W) (s : run.State W) (k : string) :
  pluginsdk.schema_lookup k
    (pluginsdk.Resource.Schema resourceDataFactoryDatasetPostgreSQL) = None ->
  run.field k
    (snd (run.handler (resourceDataFactoryDatasetPostgreSQLRead meta) s))
  = run.field k s.
Proof.
  intros H. rewrite handler_state.
  cbn [pluginsdk.Resource.Schema resourceDataFactoryDatasetPostgreSQL
       pluginsdk.schema_lookup] in H.
  repeat match type of H with
         | (if String.eqb ?a k then _ else _) = None =>
             destruct (String.eqb_spec a k); [discriminate H|]
         end.
  apply Read_preserves_field; assumption.
Qed.

Lemma Set__id (key : string) (value : any) (d : pluginsdk.ResourceData.t) :
  pluginsdk.Id (fst (pluginsdk.Set_ schema_check key value d)) = pluginsdk.Id d.
Proof. unfold pluginsdk.Set_. destruct (schema_check key value); reflexivity. Qed.

Lemma Set__accepted (key : string) (value : any) (d : pluginsdk.ResourceData.t) :
  schema_check key value = None ->
  pluginsdk.Set_ schema_check key value d
  = (pluginsdk.ResourceData.mk (pluginsdk.ResourceData.id d)
       (pluginsdk.ResourceData.isNew d)
       (<[key := value]> (pluginsdk.ResourceData.values d)), None).
Proof. intros H. unfold pluginsdk.Set_. rewrite H. reflexivity. Qed.

(** How a handler ends, read off its body. *)
Lemma handler_returned (m : run.M W Empty_set) (s : run.State W)
  (result : option error) :
  fst (run.handler m s) = run.Returned result <-> fst (m s) = run.Return result.
Proof.
  unfold run.handler. destruct (m s) as [[e|err|] s']; [destruct e| |]; cbn;
    split; intros H; inversion H; reflexivity.
Qed.

Lemma Read_returns (meta : clients.Client.t W) :
  run.returns_only (nil_or is_read_error)
    (resourceDataFactoryDatasetPostgreSQLRead meta).
Proof.
  unfold resourceDataFactoryDatasetPostgreSQLRead. cbv zeta.
  repeat first [ apply setRelationalTableFields_returns | returns_step ].
Qed.


(** The calls of a read: none when the identifier does not parse, the
    fetch otherwise. *)
Lemma Read_call_kinds (meta : clients.Client.t W) (s : run.State W) :
  exists rest : list Call,
    run.calls (snd (run.handler (resourceDataFactoryDatasetPostgreSQLRead meta) s))
    = (run.calls s ++ rest)%list
    /\ (kind_of <$> rest = [] \/ kind_of <$> rest = [KindGet]).
Proof.
  rewrite handler_state. destruct s as [d w log].
  unfold resourceDataFactoryDatasetPostgreSQLRead. unfold_run.
  cbn -[setRelationalTableFields pluginsdk.Set_].
  destruct (parse.DataSetID provider (pluginsdk.Id d)) as [e|id];
    cbn -[setRelationalTableFields pluginsdk.Set_].
  { exists []. split; [symmetry; apply app_nil_r|left; reflexivity]. }
  destruct (datafactory.DatasetsClient.Get _ w _ _ _ _) as [[resp err] w'].
  cbn -[setRelationalTableFields pluginsdk.Set_].
  destruct err as [e|]; cbn -[setRelationalTableFields pluginsdk.Set_].
  { destruct (utils.ResponseWasNotFound _); eexists; split;
      try reflexivity; right; reflexivity. }
  destruct (datafactory.DatasetResource.Properties resp) as [[r|tag]|];
    cbn -[setRelationalTableFields pluginsdk.Set_].
  - rewrite (setRelationalTableFields_silent r _).
    eexists; split; [reflexivity|right; reflexivity].
  - destruct (datafactory.DatasetResource.Type_ resp); eexists; split;
      try reflexivity; right; reflexivity.
  - eexists; split; [reflexivity|right; reflexivity].
Qed.

(** X1. The read handler never issues a mutating call: it issues no call
    when the persistent key does not parse, and otherwise exactly one
    call, the fetch of the dataset the key names, however it ends. *)
Theorem Read_only_fetches (meta : clients.Client.t W) (s : run.State W) :
  let s' := snd (run.handler (resourceDataFactoryDatasetPostgreSQLRead meta) s) in
  match parse.DataSetID provider (run.key s) with
  | inl _ => run.calls s' = run.calls s
  | inr id =>
      run.calls s'
      = (run.calls s
           ++ [CallGet (parse.DataSetId.ResourceGroup id)
                 (parse.DataSetId.FactoryName id) (parse.DataSetId.Name id) ""])%list
  end.
Proof.
  cbv zeta. rewrite handler_state. destruct s as [d w log]. unfold run.key.
  unfold resourceDataFactoryDatasetPostgreSQLRead. unfold_run.
  cbn -[setRelationalTableFields pluginsdk.Set_].
  destruct (parse.DataSetID provider (pluginsdk.Id d)) as [e|id];
    cbn -[setRelationalTableFields pluginsdk.Set_]; [reflexivity|].
  destruct (datafactory.DatasetsClient.Get _ w _ _ _ _) as [[resp err] w'].
  cbn -[setRelationalTableFields pluginsdk.Set_].
  destruct err as [e|]; cbn -[setRelationalTableFields pluginsdk.Set_].
  { destruct (utils.ResponseWasNotFound _); reflexivity. }
  destruct (datafactory.DatasetResource.Properties resp) as [[r|tag]|];
    cbn -[setRelationalTableFields pluginsdk.Set_].
  - rewrite (setRelationalTableFields_silent r _). reflexivity.
  - destruct (datafactory.DatasetResource.Type_ resp); reflexivity.
  - reflexivity.
Qed.

(** X2. The read handler changes the persistent key in one case only:
    it sets it to the empty string, and then it returns [nil].  A read
    that returns an error, or panics, leaves the key as it was. *)
Theorem Read_clears_key_only_when_gone
  (meta : clients.Client.t W) (s : run.State W) :
  let r := run.handler (resourceDataFactoryDatasetPostgreSQLRead meta) s in
  run.key (snd r) = run.key s
  \/ (run.key (snd r) = "" /\ fst r = run.Returned None).
Proof.
  cbv zeta. destruct s as [d w log]. unfold run.key.
  unfold resourceDataFactoryDatasetPostgreSQLRead. unfold_run.
  cbn -[setRelationalTableFields pluginsdk.Set_].
  destruct (parse.DataSetID provider (pluginsdk.Id d)) as [e|id];
    cbn -[setRelationalTableFields pluginsdk.Set_]; [left; reflexivity|].
  destruct (datafactory.DatasetsClient.Get _ w _ _ _ _) as [[resp err] w'].
  cbn -[setRelationalTableFields pluginsdk.Set_].
  destruct err as [e|]; cbn -[setRelationalTableFields pluginsdk.Set_].
  { destruct (utils.ResponseWasNotFound _); cbn;
      [right; split; reflexivity|left; reflexivity]. }
  left.
  destruct (datafactory.DatasetResource.Properties resp) as [[r|tag]|];
    cbn -[setRelationalTableFields pluginsdk.Set_].
  - match goal with
    | |- context [setRelationalTableFields r ?s4] =>
        pose proof (setRelationalTableFields_key r s4) as Hkey;
        destruct (setRelationalTableFields r s4) as [[[]|err|] s5]
    end; cbn -[pluginsdk.Set_] in *; unfold run.key in Hkey;
      cbn -[pluginsdk.Set_] in Hkey; rewrite Hkey, !Set__id; reflexivity.
  - destruct (datafactory.DatasetResource.Type_ resp);
      cbn -[pluginsdk.Set_]; rewrite !Set__id; reflexivity.
  - rewrite !Set__id. reflexivity.
Qed.

(** X4. A fetch that fails with anything but a not-found response ends
    the read with that error wrapped, and leaves the declared state and
    the persistent key untouched. *)
Theorem Read_fetch_failure_keeps_state
  (meta : clients.Client.t W) (d : pluginsdk.ResourceData.t) (w w' : W)
  (log : list Call) (id : parse.DataSetId.t)
  (resp : datafactory.DatasetResource.t) (e : error) :
  parse.DataSetID provider (pluginsdk.Id d) = inr id ->
  datafactory.DatasetsClient.Get (client_of meta) w
    (parse.DataSetId.ResourceGroup id) (parse.DataSetId.FactoryName id)
    (parse.DataSetId.Name id) "" = ((resp, Some e), w') ->
  utils.ResponseWasNotFound (datafactory.DatasetResource.Response resp) = false ->
  run.handler (resourceDataFactoryDatasetPostgreSQLRead meta) (run.mkState d w log)
  = (run.Returned (Some (Retrieving id e)),
     run.mkState d w'
       (log ++ [CallGet (parse.DataSetId.ResourceGroup id)
                  (parse.DataSetId.FactoryName id) (parse.DataSetId.Name id) ""])).
Proof.
  intros Hid Hget Hother.
  unfold resourceDataFactoryDatasetPostgreSQLRead. unfold_run. cbn.
  rewrite Hid. cbn. rewrite Hget. cbn. rewrite Hother. reflexivity.
Qed.

(** The four fields taken from the parsed key, after any read whose fetch
    succeeded. *)
Lemma Read_identity_fields
  (meta : clients.Client.t W) (d : pluginsdk.ResourceData.t) (w w' : W)
  (log : list Call) (id : parse.DataSetId.t)
  (resp : datafactory.DatasetResource.t) :
  parse.DataSetID provider (pluginsdk.Id d) = inr id ->
  datafactory.DatasetsClient.Get (client_of meta) w
    (parse.DataSetId.ResourceGroup id) (parse.DataSetId.FactoryName id)
    (parse.DataSetId.Name id) "" = ((resp, None), w') ->
  let factory :=
    parse.NewDataFactoryID (parse.DataSetId.SubscriptionId id)
      (parse.DataSetId.ResourceGroup id) (parse.DataSetId.FactoryName id) in
  schema_check "name" (AString (parse.DataSetId.Name id)) = None ->
  schema_check "resource_group_name" (AString (parse.DataSetId.ResourceGroup id))
  = None ->
  schema_check "data_factory_name" (AString (parse.DataSetId.FactoryName id)) = None ->
  schema_check "data_factory_id" (AString (parse.DataFactoryId_ID provider factory))
  = None ->
  let s' :=
    snd (run.handler (resourceDataFactoryDatasetPostgreSQLRead meta)
           (run.mkState d w log)) in
  run.field "name" s' = Some (AString (parse.DataSetId.Name id))
  /\ run.field "resource_group_name" s'
     = Some (AString (parse.DataSetId.ResourceGroup id))
  /\ run.field "data_factory_name" s'
     = Some (AString (parse.DataSetId.FactoryName id))
  /\ run.field "data_factory_id" s'
     = Some (AString (parse.DataFactoryId_ID provider factory)).
Proof.
  intros Hid Hget factory H1 H2 H3 H4 s'. subst s'. rewrite handler_state.
  unfold resourceDataFactoryDatasetPostgreSQLRead. unfold_run.
  cbn -[setRelationalTableFields pluginsdk.Set_].
  rewrite Hid. cbn -[setRelationalTableFields pluginsdk.Set_].
  rewrite Hget. cbn -[setRelationalTableFields pluginsdk.Set_].
  fold factory.
  rewrite (Set__accepted _ _ _ H1). cbn -[setRelationalTableFields pluginsdk.Set_].
  rewrite (Set__accepted _ _ _ H2). cbn -[setRelationalTableFields pluginsdk.Set_].
  rewrite (Set__accepted _ _ _ H3). cbn -[setRelationalTableFields pluginsdk.Set_].
  rewrite (Set__accepted _ _ _ H4). cbn -[setRelationalTableFields pluginsdk.Set_].
  assert (Hwritten : forall s4 : run.State W,
    pluginsdk.ResourceData.values (run.d s4)
    = <["data_factory_id" := AString (parse.DataFactoryId_ID provider factory)]>
        (<["data_factory_name" := AString (parse.DataSetId.FactoryName id)]>
           (<["resource_group_name" := AString (parse.DataSetId.ResourceGroup id)]>
              (<["name" := AString (parse.DataSetId.Name id)]>
                 (pluginsdk.ResourceData.values d)))) ->
    run.field "name" s4 = Some (AString (parse.DataSetId.Name id))
    /\ run.field "resource_group_name" s4
       = Some (AString (parse.DataSetId.ResourceGroup id))
    /\ run.field "data_factory_name" s4
       = Some (AString (parse.DataSetId.FactoryName id))
    /\ run.field "data_factory_id" s4
       = Some (AString (parse.DataFactoryId_ID provider factory))).
  { intros s4 Hvalues. unfold run.field. rewrite Hvalues.
    repeat split; simplify_map_eq; reflexivity. }
  destruct (datafactory.DatasetResource.Properties resp) as [[r|tag]|];
    cbn -[setRelationalTableFields run.field].
  - rewrite !(setRelationalTableFields_frame r _) by discriminate.
    apply Hwritten. reflexivity.
  - destruct (datafactory.DatasetResource.Type_ resp);
      cbn -[run.field]; apply Hwritten; reflexivity.
  - apply Hwritten. reflexivity.
Qed.

(** X5. Once the fetch has succeeded, the read handler has written
    [name], [resource_group_name], [data_factory_name] and
    [data_factory_id] from the parsed key, and they stay so whatever the
    rest of the read does: also when it ends in the classification error,
    in a [d.Set] error, or in a panic. *)
Theorem Read_sets_identity_fields
  (meta : clients.Client.t W) (d : pluginsdk.ResourceData.t) (w w' : W)
  (log : list Call) (id : parse.DataSetId.t)
  (resp : datafactory.DatasetResource.t) :
  parse.DataSetID provider (pluginsdk.Id d) = inr id ->
  datafactory.DatasetsClient.Get (client_of meta) w
    (parse.DataSetId.ResourceGroup id) (parse.DataSetId.FactoryName id)
    (parse.DataSetId.Name id) "" = ((resp, None), w') ->
  let factory :=
    parse.NewDataFactoryID (parse.DataSetId.SubscriptionId id)
      (parse.DataSetId.ResourceGroup id) (parse.DataSetId.FactoryName id) in
  schema_check "name" (AString (parse.DataSetId.Name id)) = None ->
  schema_check "resource_group_name" (AString (parse.DataSetId.ResourceGroup id))
  = None ->
  schema_check "data_factory_name" (AString (parse.DataSetId.FactoryName id)) = None ->
  schema_check "data_factory_id" (AString (parse.DataFactoryId_ID provider factory))
  = None ->
  let s' :=
    snd (run.handler (resourceDataFactoryDatasetPostgreSQLRead meta)
           (run.mkState d w log)) in
  run.field "name" s' = Some (AString (parse.DataSetId.Name id))
  /\ run.field "resource_group_name" s'
     = Some (AString (parse.DataSetId.ResourceGroup id))
  /\ run.field "data_factory_name" s'
     = Some (AString (parse.DataSetId.FactoryName id))
  /\ run.field "data_factory_id" s'
     = Some (AString (parse.DataFactoryId_ID provider factory)).
Proof. exact (Read_identity_fields meta d w w' log id resp). Qed.

(** ** What a read that returns [nil] has written *)

Lemma establishes_after {A} (k : string) (v : any)
  (m : run.M W A) (f : A -> run.M W Empty_set) :
  run.returns_only (fun result => result <> None) m ->
  (forall a, run.establishes k v (f a)) ->
  run.establishes k v (m ≫= f).
Proof.
  intros Hm Hf s. specialize (Hm s).
  unfold mbind, M_bind, run.bind. destruct (m s) as [[a|err|] s']; cbn in *.
  - apply Hf.
  - intros [= ->]. contradiction.
  - discriminate.
Qed.

Lemma establishes_by_checked_Set (k : string) (v : any)
  (wrap : error -> error) (rest : run.M W Empty_set) :
  run.preserves (run.field k) rest ->
  run.establishes k v
    (err ← run.Set_ schema_check k v;
     match err with
     | Some e => run.return_ (Some (wrap e))
     | None => mret tt
     end;;
     rest).
Proof.
  intros Hrest s. unfold mbind, M_bind, run.bind, run.Set_.
  cbn -[pluginsdk.Set_]. unfold pluginsdk.Set_.
  destruct (schema_check k v) as [e|]; cbn; [discriminate|].
  intros _. rewrite Hrest. unfold run.field. cbn. apply lookup_insert_eq.
Qed.

Ltac establishes_step :=
  first
    [ apply establishes_by_checked_Set; repeat frame_step
    | apply establishes_after; [repeat returns_step; discriminate|intros ?] ].

Lemma setRelationalTableFields_establishes
  (postgresqlTable : datafactory.RelationalTableDataset.t) :
  run.establishes "parameters"
    (AMap (flattenDataFactoryParameters
             (datafactory.RelationalTableDataset.Parameters postgresqlTable)))
    (setRelationalTableFields postgresqlTable)
  /\ run.establishes "annotations"
       (AList (AString <$> flattenDataFactoryAnnotations
                 (datafactory.RelationalTableDataset.Annotations postgresqlTable)))
       (setRelationalTableFields postgresqlTable)
  /\ run.establishes "schema_column"
       (AList (flattenDataFactoryStructureColumns
                 (datafactory.RelationalTableDataset.Structure postgresqlTable)))
       (setRelationalTableFields postgresqlTable).
Proof.
  unfold setRelationalTableFields. cbv zeta. repeat split; repeat establishes_step.
Qed.

(** X6. A read that finds a relational-table dataset and returns [nil]
    has written [parameters], [annotations] and [schema_column] as
    flattened from the response, empty when the response holds none:
    for these three fields a [d.Set] that fails ends the read. *)
Theorem Read_success_writes_collections
  (meta : clients.Client.t W) (d : pluginsdk.ResourceData.t) (w w' : W)
  (log : list Call) (id : parse.DataSetId.t)
  (resp : datafactory.DatasetResource.t)
  (postgresqlTable : datafactory.RelationalTableDataset.t) :
  parse.DataSetID provider (pluginsdk.Id d) = inr id ->
  datafactory.DatasetsClient.Get (client_of meta) w
    (parse.DataSetId.ResourceGroup id) (parse.DataSetId.FactoryName id)
    (parse.DataSetId.Name id) "" = ((resp, None), w') ->
  datafactory.DatasetResource.Properties resp
  = Some (datafactory.IsRelationalTableDataset postgresqlTable) ->
  fst (run.handler (resourceDataFactoryDatasetPostgreSQLRead meta)
         (run.mkState d w log)) = run.Returned None ->
  let s' :=
    snd (run.handler (resourceDataFactoryDatasetPostgreSQLRead meta)
           (run.mkState d w log)) in
  run.field "parameters" s'
  = Some (AMap (flattenDataFactoryParameters
                  (datafactory.RelationalTableDataset.Parameters postgresqlTable)))
  /\ run.field "annotations" s'
     = Some (AList (AString <$> flattenDataFactoryAnnotations
                      (datafactory.RelationalTableDataset.Annotations postgresqlTable)))
  /\ run.field "schema_column" s'
     = Some (AList (flattenDataFactoryStructureColumns
                      (datafactory.RelationalTableDataset.Structure postgresqlTable))).
Proof.
  intros Hid Hget Hprops Hnil s'. subst s'.
  apply handler_returned in Hnil. rewrite handler_state. revert Hnil.
  unfold resourceDataFactoryDatasetPostgreSQLRead. unfold_run.
  cbn -[setRelationalTableFields pluginsdk.Set_].
  rewrite Hid. cbn -[setRelationalTableFields pluginsdk.Set_].
  rewrite Hget. cbn -[setRelationalTableFields pluginsdk.Set_].
  rewrite Hprops. cbn -[setRelationalTableFields pluginsdk.Set_].
  intros Hnil.
  destruct (setRelationalTableFields_establishes postgresqlTable) as (Hp & Ha & Hs).
  repeat split; [apply Hp|apply Ha|apply Hs]; exact Hnil.
Qed.

(** ** What a read writes whether or not the response holds it *)

Lemma written_by_Set (k : string) (v : any) (rest : run.M W Empty_set)
  (s : run.State W) :
  schema_check k v = None ->
  run.preserves (run.field k) rest ->
  run.field k (snd ((run.Set_ schema_check k v;; rest) s)) = Some v.
Proof.
  intros Haccepted Hrest. unfold mbind, M_bind, run.bind, run.Set_.
  cbn -[pluginsdk.Set_]. rewrite (Set__accepted _ _ _ Haccepted). cbn.
  rewrite Hrest. unfold run.field. cbn. apply lookup_insert_eq.
Qed.

Lemma setRelationalTableFields_additional_properties
  (postgresqlTable : datafactory.RelationalTableDataset.t) (s : run.State W) :
  let v := AMap (datafactory.RelationalTableDataset.AdditionalProperties
                   postgresqlTable) in
  schema_check "additional_properties" v = None ->
  run.field "additional_properties" (snd (setRelationalTableFields postgresqlTable s))
  = Some v.
Proof.
  intros v Haccepted. unfold setRelationalTableFields. cbv zeta.
  apply written_by_Set; [exact Haccepted|]. repeat frame_step.
Qed.

(** C8. When the read handler has fetched a relational-table dataset,
    each of the optional fields [description], [linked_service_name],
    [table_name] and [folder] for which the response holds nothing (a nil
    description, a nil linked-service reference or reference name, nil
    type properties or a table name that is not a string, a nil folder or
    folder name) is not written: the declared state holds for it what it
    held before the read.  The other fields of the variant are written
    whether or not the response holds them: [additional_properties] holds
    the map of the response once the schema accepts it, and after a read
    that returns [nil] the fields [parameters], [annotations] and
    [schema_column] hold what the response's values flatten to, which for
    a response without them is the flattening of nil. *)
Theorem Read_leaves_absent_fields_unset
  (meta : clients.Client.t W) (d : pluginsdk.ResourceData.t) (w w' : W)
  (log : list Call) (id : parse.DataSetId.t)
  (resp : datafactory.DatasetResource.t) (properties : datafactory.BasicDataset)
  (postgresqlTable : datafactory.RelationalTableDataset.t) :
  parse.DataSetID provider (pluginsdk.Id d) = inr id ->
  datafactory.DatasetsClient.Get (client_of meta) w
    (parse.DataSetId.ResourceGroup id) (parse.DataSetId.FactoryName id)
    (parse.DataSetId.Name id) "" = ((resp, None), w') ->
  datafactory.DatasetResource.Properties resp = Some properties ->
  datafactory.AsRelationalTableDataset properties = Some postgresqlTable ->
  let out :=
    run.handler (resourceDataFactoryDatasetPostgreSQLRead meta)
      (run.mkState d w log) in
  let d' := run.d (snd out) in
  ((datafactory.upstream.description postgresqlTable = None ->
    pluginsdk.ResourceData.values d' !! "description"
    = pluginsdk.ResourceData.values d !! "description")
   /\ (datafactory.upstream.linked_service_name postgresqlTable = None ->
       pluginsdk.ResourceData.values d' !! "linked_service_name"
       = pluginsdk.ResourceData.values d !! "linked_service_name")
   /\ (datafactory.upstream.table_name postgresqlTable = None ->
       pluginsdk.ResourceData.values d' !! "table_name"
       = pluginsdk.ResourceData.values d !! "table_name")
   /\ (datafactory.upstream.folder postgresqlTable = None ->
       pluginsdk.ResourceData.values d' !! "folder"
       = pluginsdk.ResourceData.values d !! "folder"))
  /\ (schema_check "additional_properties"
        (AMap (datafactory.RelationalTableDataset.AdditionalProperties
                 postgresqlTable)) = None ->
      pluginsdk.ResourceData.values d' !! "additional_properties"
      = Some (AMap (datafactory.RelationalTableDataset.AdditionalProperties
                      postgresqlTable)))
  /\ (fst out = run.Returned None ->
      pluginsdk.ResourceData.values d' !! "parameters"
      = Some (AMap (flattenDataFactoryParameters
                      (datafactory.RelationalTableDataset.Parameters postgresqlTable)))
      /\ pluginsdk.ResourceData.values d' !! "annotations"
         = Some (AList (AString <$> flattenDataFactoryAnnotations
                          (datafactory.RelationalTableDataset.Annotations
                             postgresqlTable)))
      /\ pluginsdk.ResourceData.values d' !! "schema_column"
         = Some (AList (flattenDataFactoryStructureColumns
                          (datafactory.RelationalTableDataset.Structure
                             postgresqlTable)))).
Proof.
  intros Hid Hget Hprops Hvariant out d'.
  destruct properties as [r|tag]; [|discriminate Hvariant].
  injection Hvariant as ->. subst d' out.
  split; [|split].
  - repeat split; intros Habsent;
      apply (Read_relational_table_field _ _ _ _ _ _ _ _ _ Hid Hget Hprops);
      try discriminate.
    + apply setRelationalTableFields_keeps_description, Habsent.
    + apply setRelationalTableFields_keeps_linked_service_name, Habsent.
    + apply setRelationalTableFields_keeps_table_name, Habsent.
    + apply setRelationalTableFields_keeps_folder, Habsent.
  - intros Haccepted. rewrite handler_state.
    unfold resourceDataFactoryDatasetPostgreSQLRead. unfold_run.
    cbn -[setRelationalTableFields pluginsdk.Set_].
    rewrite Hid. cbn -[setRelationalTableFields pluginsdk.Set_].
    rewrite Hget. cbn -[setRelationalTableFields pluginsdk.Set_].
    rewrite Hprops. cbn -[setRelationalTableFields pluginsdk.Set_].
    apply (setRelationalTableFields_additional_properties postgresqlTable _ Haccepted).
  - intros Hnil.
    apply handler_returned in Hnil. rewrite handler_state. revert Hnil.
    unfold resourceDataFactoryDatasetPostgreSQLRead. unfold_run.
    cbn -[setRelationalTableFields pluginsdk.Set_].
    rewrite Hid. cbn -[setRelationalTableFields pluginsdk.Set_].
    rewrite Hget. cbn -[setRelationalTableFields pluginsdk.Set_].
    rewrite Hprops. cbn -[setRelationalTableFields pluginsdk.Set_].
    intros Hnil.
    destruct (setRelationalTableFields_establishes postgresqlTable) as (Hp & Ha & Hs).
    repeat split; [apply Hp|apply Ha|apply Hs]; exact Hnil.
Qed.

(** ** The delete handler and the importer *)

(** X8. The delete handler never touches the declared state and never
    panics.  When the persistent key does not parse it returns the parse
    error without a call; otherwise it issues exactly one call, the delete
    of the dataset the key names, and returns [nil] or that call's error
    wrapped as [deleting]. *)
Theorem Delete_frame (meta : clients.Client.t W) (s : run.State W) :
  let r := run.handler (resourceDataFactoryDatasetPostgreSQLDelete meta) s in
  run.d (snd r) = run.d s
  /\ (exists result : option error,
        fst r = run.Returned result /\ nil_or is_delete_error result)
  /\ match parse.DataSetID provider (run.key s) with
     | inl e => r = (run.Returned (Some (ParseFailure e)), s)
     | inr id =>
         run.calls (snd r)
         = (run.calls s
              ++ [CallDelete (parse.DataSetId.ResourceGroup id)
                    (parse.DataSetId.FactoryName id) (parse.DataSetId.Name id)])%list
     end.
Proof.
  cbv zeta. destruct s as [d w log]. unfold run.key.
  unfold resourceDataFactoryDatasetPostgreSQLDelete. unfold_run. cbn.
  destruct (parse.DataSetID provider (pluginsdk.Id d)) as [e|id]; cbn.
  { repeat split. exists (Some (ParseFailure e)). split; reflexivity. }
  destruct (datafactory.DatasetsClient.Delete _ w _ _ _) as [[response err] w'].
  cbn. destruct err as [e|]; cbn;
    [destruct (utils.ResponseWasNotFound response); cbn|];
    repeat split; eexists; split; reflexivity.
Qed.

Lemma setRelationalTableFields_no_parse_failure
  (postgresqlTable : datafactory.RelationalTableDataset.t) :
  run.returns_only (nil_or (fun e => negb (is_parse_failure e)))
    (setRelationalTableFields postgresqlTable).
Proof. unfold setRelationalTableFields. repeat returns_step. Qed.

(** X9. The importer's verdict on a key is the verdict of the read and
    delete handlers on it: a key the importer refuses makes both return
    that same error at once, state untouched; a key it accepts never makes
    either return a parse error. *)
Theorem Importer_agrees_with_handlers
  (meta : clients.Client.t W) (s : run.State W)
  (validate : string -> option error) :
  pluginsdk.Resource.Importer resourceDataFactoryDatasetPostgreSQL = Some validate ->
  match validate (run.key s) with
  | Some err =>
      run.handler (resourceDataFactoryDatasetPostgreSQLRead meta) s
      = (run.Returned (Some err), s)
      /\ run.handler (resourceDataFactoryDatasetPostgreSQLDelete meta) s
         = (run.Returned (Some err), s)
  | None =>
      forall e : error,
        is_parse_failure e = true ->
        fst (run.handler (resourceDataFactoryDatasetPostgreSQLRead meta) s)
        <> run.Returned (Some e)
        /\ fst (run.handler (resourceDataFactoryDatasetPostgreSQLDelete meta) s)
           <> run.Returned (Some e)
  end.
Proof.
  intros [= <-]. destruct s as [d w log]. unfold run.key.
  unfold resourceDataFactoryDatasetPostgreSQLRead,
    resourceDataFactoryDatasetPostgreSQLDelete.
  unfold_run. cbn -[setRelationalTableFields pluginsdk.Set_].
  destruct (parse.DataSetID provider (pluginsdk.Id d)) as [e|id];
    cbn -[setRelationalTableFields pluginsdk.Set_]; [split; reflexivity|].
  intros e He. split.
  - destruct (datafactory.DatasetsClient.Get _ w _ _ _ _) as [[resp err] w'].
    cbn -[setRelationalTableFields pluginsdk.Set_].
    destruct err as [e'|]; cbn -[setRelationalTableFields pluginsdk.Set_].
    { destruct (utils.ResponseWasNotFound _); cbn; intros [= <-]; discriminate. }
    destruct (datafactory.DatasetResource.Properties resp) as [[r|tag]|];
      cbn -[setRelationalTableFields pluginsdk.Set_].
    + match goal with
      | |- context [setRelationalTableFields r ?s4] =>
          pose proof (setRelationalTableFields_no_parse_failure r s4) as Hr;
          destruct (setRelationalTableFields r s4) as [[[]|err|] s5]
      end; cbn in *; [|discriminate].
      intros [= ->]. cbn in Hr. rewrite He in Hr. discriminate.
    + destruct (datafactory.DatasetResource.Type_ resp); cbn;
        [intros [= <-]|]; discriminate.
    + discriminate.
  - destruct (datafactory.DatasetsClient.Delete _ w _ _ _) as [[response err] w'].
    cbn. destruct err as [e'|]; cbn;
      [destruct (utils.ResponseWasNotFound response); cbn|];
      intros [= <-]; discriminate.
Qed.

(** ** More on the create/update handler *)

Lemma returns_only_weaken (Q Q' : option error -> Prop) {A} (m : run.M W A) :
  (forall result, Q result -> Q' result) ->
  run.returns_only Q m -> run.returns_only Q' m.
Proof.
  intros HQ Hm s. specialize (Hm s).
  destruct (fst (m s)); [exact I|apply HQ, Hm|exact I].
Qed.

Lemma read_error_is_create_update_error (result : option error) :
  nil_or is_read_error result -> nil_or is_create_update_error result.
Proof.
  destruct result as [e|]; [|intros _; exact I].
  destruct e; cbn; intros H; first [exact H | discriminate H].
Qed.

Lemma CreateUpdate_returns (meta : clients.Client.t W) :
  run.returns_only (nil_or is_create_update_error)
    (resourceDataFactoryDatasetPostgreSQLCreateUpdate meta).
Proof.
  unfold resourceDataFactoryDatasetPostgreSQLCreateUpdate,
    resolveDataSetId, checkForExisting, expandDataset.
  cbv zeta.
  repeat first
    [ apply (returns_only_weaken _ _ _ read_error_is_create_update_error),
        Read_returns
    | returns_step ].
Qed.

(** X15. Every error the create/update handler returns is the parse error
    of [data_factory_id], the probe error wrapped as [checking for
    presence], the already-exists error for this resource type, the error
    of [CreateOrUpdate] wrapped as [creating/updating], or an error of the
    read handler it ends with. *)
Theorem CreateUpdate_errors
  (meta : clients.Client.t W) (s : run.State W) (e : error) :
  fst (run.handler (resourceDataFactoryDatasetPostgreSQLCreateUpdate meta) s)
  = run.Returned (Some e) ->
  is_create_update_error e = true.
Proof.
  intros H. apply handler_returned in H.
  pose proof (CreateUpdate_returns meta s) as Hreturns. rewrite H in Hreturns.
  exact Hreturns.
Qed.

(** On an update the probe is skipped. *)
Lemma checkForExisting_update (meta : clients.Client.t W)
  (id : parse.DataSetId.t) (s : run.State W) :
  pluginsdk.IsNewResource (run.d s) = false ->
  checkForExisting meta id s = (run.Next tt, s).
Proof.
  intros H. unfold checkForExisting. unfold_run. cbn. rewrite H. reflexivity.
Qed.

(** Past the probe: [CreateOrUpdate], then at most the fetch of the read. *)
Lemma CreateUpdate_submits_kinds (meta : clients.Client.t W)
  (id : parse.DataSetId.t) (s s1 : run.State W) :
  resolveDataSetId meta s = (run.Next id, s) ->
  checkForExisting meta id s = (run.Next tt, s1) ->
  exists rest : list Call,
    run.calls (snd (run.handler (resourceDataFactoryDatasetPostgreSQLCreateUpdate meta) s))
    = (run.calls s1 ++ rest)%list
    /\ (kind_of <$> rest = [KindCreateOrUpdate]
        \/ kind_of <$> rest = [KindCreateOrUpdate; KindGet]).
Proof.
  intros Hresolve Hcheck.
  destruct (expandDataset_total s1) as [dataset Hdataset].
  rewrite handler_state.
  unfold resourceDataFactoryDatasetPostgreSQLCreateUpdate.
  unfold mbind, M_bind, run.bind. cbv beta zeta.
  rewrite Hresolve, Hcheck, Hdataset.
  unfold run.CreateOrUpdate, run.SetId, run.return_, mret, M_ret, run.ret.
  cbn -[resourceDataFactoryDatasetPostgreSQLRead].
  destruct (datafactory.DatasetsClient.CreateOrUpdate _ _ _ _ _ _ _)
    as [[r [e'|]] w''];
    cbn -[resourceDataFactoryDatasetPostgreSQLRead].
  - eexists. split; [reflexivity|left; reflexivity].
  - match goal with
    | |- context [resourceDataFactoryDatasetPostgreSQLRead meta ?s] =>
        destruct (Read_call_kinds meta s) as (rest & Hrest & Hkinds);
        rewrite handler_state in Hrest; rewrite Hrest
    end.
    cbn. rewrite <- app_assoc. eexists. split; [reflexivity|].
    cbn. destruct Hkinds as [-> | ->]; [left|right]; reflexivity.
Qed.

(** X10. The calls of a create/update: at most one [CreateOrUpdate],
    before it at most the probe, after it at most the fetch of the read,
    and never a [Delete]; on an update (not a new resource) there is no
    probe, so the first call, if any, is [CreateOrUpdate]. *)
Theorem CreateUpdate_call_kinds (meta : clients.Client.t W) (s : run.State W) :
  exists rest : list Call,
    run.calls (snd (run.handler (resourceDataFactoryDatasetPostgreSQLCreateUpdate meta) s))
    = (run.calls s ++ rest)%list
    /\ In (kind_of <$> rest)
         [ []; [KindGet]; [KindCreateOrUpdate]; [KindCreateOrUpdate; KindGet];
           [KindGet; KindCreateOrUpdate];
           [KindGet; KindCreateOrUpdate; KindGet] ]
    /\ (pluginsdk.IsNewResource (run.d s) = false ->
        In (kind_of <$> rest)
          [ []; [KindCreateOrUpdate]; [KindCreateOrUpdate; KindGet] ]).
Proof.
  destruct (resolveDataSetId meta s) as [[id|err|] s0] eqn:Hresolve;
    pose proof (resolveDataSetId_state _ _ _ _ Hresolve) as ->.
  2,3: exists []; rewrite handler_state;
       unfold resourceDataFactoryDatasetPostgreSQLCreateUpdate;
       unfold mbind, M_bind, run.bind; cbv beta zeta; rewrite Hresolve; cbn;
       rewrite app_nil_r; repeat split; intros; left; reflexivity.
  destruct (pluginsdk.IsNewResource (run.d s)) eqn:Hnew.
  - destruct (checkForExisting_calls meta id s) as [Hcheck|Hcalls].
    + destruct (CreateUpdate_submits_kinds meta id s s Hresolve Hcheck)
        as (rest & Hrest & Hkinds).
      exists rest. split; [exact Hrest|]. split; [|discriminate].
      destruct Hkinds as [-> | ->]; cbn; tauto.
    + destruct (checkForExisting meta id s) as [[[]|err|] s1] eqn:Hcheck;
        cbn in Hcalls.
      * destruct (CreateUpdate_submits_kinds meta id s s1 Hresolve Hcheck)
          as (rest & Hrest & Hkinds).
        eexists. rewrite Hrest, Hcalls, <- app_assoc.
        split; [reflexivity|]. split; [|discriminate].
        rewrite fmap_app. destruct Hkinds as [-> | ->]; cbn; tauto.
      * eexists. rewrite handler_state.
        unfold resourceDataFactoryDatasetPostgreSQLCreateUpdate.
        unfold mbind, M_bind, run.bind. cbv beta zeta. rewrite Hresolve, Hcheck.
        cbn. rewrite Hcalls. split; [reflexivity|]. split; [|discriminate].
        cbn. tauto.
      * eexists. rewrite handler_state.
        unfold resourceDataFactoryDatasetPostgreSQLCreateUpdate.
        unfold mbind, M_bind, run.bind. cbv beta zeta. rewrite Hresolve, Hcheck.
        cbn. rewrite Hcalls. split; [reflexivity|]. split; [|discriminate].
        cbn. tauto.
  - pose proof (checkForExisting_update meta id s Hnew) as Hcheck.
    destruct (CreateUpdate_submits_kinds meta id s s Hresolve Hcheck)
      as (rest & Hrest & Hkinds).
    exists rest. split; [exact Hrest|].
    destruct Hkinds as [-> | ->]; cbn; tauto.
Qed.

(** X11. When [CreateOrUpdate] fails, the create/update handler returns
    its error wrapped as [creating/updating]; the persistent key is not
    set and the declared state is as the handler found it. *)
Theorem CreateUpdate_failure_keeps_state
  (meta : clients.Client.t W) (s s1 : run.State W) (id : parse.DataSetId.t)
  (dataset r : datafactory.DatasetResource.t) (e : error) (w2 : W) :
  resolveDataSetId meta s = (run.Next id, s) ->
  checkForExisting meta id s = (run.Next tt, s1) ->
  expandDataset s1 = (run.Next dataset, s1) ->
  datafactory.DatasetsClient.CreateOrUpdate (client_of meta) (run.world s1)
    (parse.DataSetId.ResourceGroup id) (parse.DataSetId.FactoryName id)
    (parse.DataSetId.Name id) dataset "" = ((r, Some e), w2) ->
  run.handler (resourceDataFactoryDatasetPostgreSQLCreateUpdate meta) s
  = (run.Returned (Some (CreatingUpdating id e)),
     run.mkState (run.d s) w2
       (run.calls s1
          ++ [CallCreateOrUpdate (parse.DataSetId.ResourceGroup id)
                (parse.DataSetId.FactoryName id) (parse.DataSetId.Name id)
                dataset ""])).
Proof.
  intros Hresolve Hcheck Hdataset Hcreate.
  assert (Hd : run.d s1 = run.d s).
  { destruct (checkForExisting_calls meta id s) as [H|_].
    - rewrite H in Hcheck. inversion Hcheck. reflexivity.
    - revert Hcheck. destruct s as [d w log].
      unfold checkForExisting. unfold_run. cbn.
      destruct (pluginsdk.IsNewResource d); cbn;
        [|intros H; inversion H; reflexivity].
      destruct (datafactory.DatasetsClient.Get _ w _ _ _ _) as [[existing err] w'].
      cbn. destruct err as [e0|]; cbn;
        [destruct (utils.ResponseWasNotFound _); cbn|];
        try destruct (datafactory.DatasetResource.ID existing) as [existingID|];
        cbn; try destruct (String.eqb existingID ""); cbn;
        intros H; inversion H; reflexivity. }
  unfold resourceDataFactoryDatasetPostgreSQLCreateUpdate, run.handler.
  unfold mbind, M_bind, run.bind. cbv beta zeta.
  rewrite Hresolve, Hcheck, Hdataset.
  unfold run.CreateOrUpdate, run.SetId, run.return_, mret, M_ret, run.ret.
  cbn -[resourceDataFactoryDatasetPostgreSQLRead].
  rewrite Hcreate. cbn. rewrite Hd. reflexivity.
Qed.

(** ** What create/update sends, and what comes back *)

Lemma GetOk_as_string (d : pluginsdk.ResourceData.t) (k : string) (v : any) :
  pluginsdk.GetOk d k = (v, true) -> pluginsdk.GetString d k = pluginsdk.as_string v.
Proof.
  unfold pluginsdk.GetOk, pluginsdk.GetString.
  destruct (pluginsdk.ResourceData.values d !! k) as [v'|]; [|discriminate].
  intros [= -> _]. destruct v; reflexivity.
Qed.



(** The payload, field by field. *)
Lemma expandDataset_payload (s : run.State W) :
  exists postgresqlTableset : datafactory.RelationalTableDataset.t,
    expandDataset s
    = (run.Next
         (datafactory.DatasetResource.mk (autorest.Response.mk None)
            (Some (datafactory.IsRelationalTableDataset postgresqlTableset))
            None None (Some datafactory.TypeBasicDatasetTypePostgreSQLTable) None),
       s)
    /\ datafactory.RelationalTableDataset.Description postgresqlTableset
       = Some (pluginsdk.GetString (run.d s) "description")
    /\ datafactory.RelationalTableDataset.LinkedServiceName postgresqlTableset
       = Some (datafactory.LinkedServiceReference.mk (Some "LinkedServiceReference")
                 (Some (pluginsdk.GetString (run.d s) "linked_service_name")))
    /\ datafactory.RelationalTableDataset.RelationalTableDatasetTypeProperties
         postgresqlTableset
       = Some (datafactory.RelationalTableDatasetTypeProperties.mk
                 (AString (pluginsdk.GetString (run.d s) "table_name")))
    /\ datafactory.RelationalTableDataset.Folder postgresqlTableset
       = (if snd (pluginsdk.GetOk (run.d s) "folder")
          then Some (datafactory.DatasetFolder.mk
                       (Some (pluginsdk.as_string
                                (fst (pluginsdk.GetOk (run.d s) "folder")))))
          else None).
Proof.
  unfold expandDataset. unfold_run. destruct s as [d w log].
  cbn -[pluginsdk.GetOk pluginsdk.GetString].
  destruct (pluginsdk.GetOk d "folder") as [v1 [|]];
    cbn -[pluginsdk.GetOk pluginsdk.GetString];
    destruct (pluginsdk.GetOk d "parameters") as [v2 [|]];
    cbn -[pluginsdk.GetOk pluginsdk.GetString];
    destruct (pluginsdk.GetOk d "annotations") as [v3 [|]];
    cbn -[pluginsdk.GetOk pluginsdk.GetString];
    destruct (pluginsdk.GetOk d "additional_properties") as [v4 [|]];
    cbn -[pluginsdk.GetOk pluginsdk.GetString];
    destruct (pluginsdk.GetOk d "schema_column") as [v5 [|]];
    cbn -[pluginsdk.GetOk pluginsdk.GetString];
    (eexists; split; [reflexivity|]); cbn; repeat split.
Qed.

(** X12. The payload of a create/update is always a relational-table
    dataset typed [PostgreSqlTable], without ID.  It always carries the
    description, the linked service and the table name, as the empty
    string when the declared state has none; it carries the folder only
    when the declared state has a non-empty one. *)
Theorem expandDataset_sends (s : run.State W) :
  exists (dataset : datafactory.DatasetResource.t)
         (postgresqlTableset : datafactory.RelationalTableDataset.t),
    expandDataset s = (run.Next dataset, s)
    /\ datafactory.DatasetResource.ID dataset = None
    /\ datafactory.DatasetResource.Type_ dataset = Some "PostgreSqlTable"
    /\ datafactory.DatasetResource.Properties dataset
       = Some (datafactory.IsRelationalTableDataset postgresqlTableset)
    /\ datafactory.upstream.description postgresqlTableset
       = Some (pluginsdk.GetString (run.d s) "description")
    /\ datafactory.upstream.linked_service_name postgresqlTableset
       = Some (pluginsdk.GetString (run.d s) "linked_service_name")
    /\ datafactory.upstream.table_name postgresqlTableset
       = Some (pluginsdk.GetString (run.d s) "table_name")
    /\ datafactory.upstream.folder postgresqlTableset
       = (if snd (pluginsdk.GetOk (run.d s) "folder")
          then Some (pluginsdk.GetString (run.d s) "folder")
          else None).
Proof.
  destruct (expandDataset_payload s) as (tbl & Hrun & Hdescr & Hlinked & Htable & Hfolder).
  eexists. exists tbl. split; [exact Hrun|].
  unfold datafactory.upstream.description, datafactory.upstream.linked_service_name,
    datafactory.upstream.table_name, datafactory.upstream.folder.
  rewrite Hdescr, Hlinked, Htable, Hfolder. cbn.
  repeat split.
  destruct (pluginsdk.GetOk (run.d s) "folder") as [v [|]] eqn:Hok; cbn;
    [|reflexivity].
  rewrite (GetOk_as_string _ _ _ Hok). reflexivity.
Qed.


(** ** Which dataset a create/update addresses *)

(** How the identifier is resolved, as one formula. *)
Lemma resolveDataSetId_formula (meta : clients.Client.t W) (s : run.State W) :
  fst (resolveDataSetId meta s)
  = let subscriptionId :=
      datafactory.DatasetsClient.SubscriptionID (client_of meta) in
    let name := pluginsdk.GetString (run.d s) "name" in
    if String.eqb (pluginsdk.GetString (run.d s) "data_factory_id") "" then
      if String.eqb (pluginsdk.GetString (run.d s) "data_factory_name") ""
      then run.Panic
      else run.Next
             (parse.NewDataSetID subscriptionId
                (pluginsdk.GetString (run.d s) "resource_group_name")
                (pluginsdk.GetString (run.d s) "data_factory_name") name)
    else
      match parse.DataFactoryID provider
              (pluginsdk.GetString (run.d s) "data_factory_id") with
      | inl e => run.Return (Some (ParseFailure e))
      | inr factory =>
          run.Next
            (parse.NewDataSetID subscriptionId
               (parse.DataFactoryId.ResourceGroup factory)
               (parse.DataFactoryId.FactoryName factory) name)
      end.
Proof.
  destruct s as [d0 w0 log0]. unfold resolveDataSetId. unfold_run.
  cbn -[pluginsdk.GetString].
  destruct (String.eqb (pluginsdk.GetString d0 "data_factory_name") "");
    cbn -[pluginsdk.GetString];
    destruct (String.eqb (pluginsdk.GetString d0 "data_factory_id") "");
    cbn -[pluginsdk.GetString];
    try destruct (parse.DataFactoryID provider _); reflexivity.
Qed.

(** X14. The dataset a create/update addresses is a function of the four
    fields [name], [data_factory_name], [data_factory_id] and
    [resource_group_name] alone: two declared states that agree on them
    resolve alike, whatever the other fields, the platform and the log
    hold.  The schema marks the first three [ForceNew]. *)
Theorem resolveDataSetId_reads_identity_fields_only
  (meta : clients.Client.t W) (d d' : pluginsdk.ResourceData.t) (w w' : W)
  (log log' : list Call) :
  pluginsdk.GetString d "name" = pluginsdk.GetString d' "name" ->
  pluginsdk.GetString d "data_factory_name"
  = pluginsdk.GetString d' "data_factory_name" ->
  pluginsdk.GetString d "data_factory_id" = pluginsdk.GetString d' "data_factory_id" ->
  pluginsdk.GetString d "resource_group_name"
  = pluginsdk.GetString d' "resource_group_name" ->
  fst (resolveDataSetId meta (run.mkState d w log))
  = fst (resolveDataSetId meta (run.mkState d' w' log'))
  /\ forall k : string,
       In k ["name"; "data_factory_name"; "data_factory_id"] ->
       pluginsdk.ForceNew
         <$> pluginsdk.schema_lookup k
               (pluginsdk.Resource.Schema resourceDataFactoryDatasetPostgreSQL)
       = Some true.
Proof.
  intros Hname Hfactory Hid Hgroup. split.
  - rewrite !resolveDataSetId_formula. cbn [run.d].
    rewrite Hname, Hfactory, Hid, Hgroup. reflexivity.
  - intros k [<- | [<- | [<- | []]]]; reflexivity.
Qed.

Lemma field_GetString (s : run.State W) (k v : string) :
  run.field k s = Some (AString v) -> pluginsdk.GetString (run.d s) k = v.
Proof. unfold run.field, pluginsdk.GetString. intros ->. reflexivity. Qed.

(** X16. An update that follows a read addresses the dataset the key
    names: on the declared state a read leaves (fetch succeeded, the four
    identity fields accepted), with a [data_factory_id] that parses back to
    the factory it was rendered from, the identifier resolves to the
    resource group, factory and name of the key, under the subscription of
    the client, which replaces the one of the key. *)
Theorem update_after_read_addresses_key
  (meta : clients.Client.t W) (d : pluginsdk.ResourceData.t) (w w' : W)
  (log : list Call) (id : parse.DataSetId.t)
  (resp : datafactory.DatasetResource.t) :
  parse.DataSetID provider (pluginsdk.Id d) = inr id ->
  datafactory.DatasetsClient.Get (client_of meta) w
    (parse.DataSetId.ResourceGroup id) (parse.DataSetId.FactoryName id)
    (parse.DataSetId.Name id) "" = ((resp, None), w') ->
  let factory :=
    parse.NewDataFactoryID (parse.DataSetId.SubscriptionId id)
      (parse.DataSetId.ResourceGroup id) (parse.DataSetId.FactoryName id) in
  schema_check "name" (AString (parse.DataSetId.Name id)) = None ->
  schema_check "resource_group_name" (AString (parse.DataSetId.ResourceGroup id))
  = None ->
  schema_check "data_factory_name" (AString (parse.DataSetId.FactoryName id)) = None ->
  schema_check "data_factory_id" (AString (parse.DataFactoryId_ID provider factory))
  = None ->
  parse.DataFactoryID provider (parse.DataFactoryId_ID provider factory)
  = inr factory ->
  let s' :=
    snd (run.handler (resourceDataFactoryDatasetPostgreSQLRead meta)
           (run.mkState d w log)) in
  fst (resolveDataSetId meta s')
  = run.Next
      (parse.NewDataSetID
         (datafactory.DatasetsClient.SubscriptionID (client_of meta))
         (parse.DataSetId.ResourceGroup id) (parse.DataSetId.FactoryName id)
         (parse.DataSetId.Name id)).
Proof.
  intros Hid Hget factory H1 H2 H3 H4 Hround s'.
  destruct (Read_identity_fields meta d w w' log id resp Hid Hget H1 H2 H3 H4)
    as (Hname & _ & Hfactory & Hfid).
  fold s' in Hname, Hfactory, Hfid. fold factory in Hfid.
  apply field_GetString in Hname, Hfactory, Hfid.
  rewrite resolveDataSetId_formula. cbv zeta.
  rewrite Hname, Hfid, Hround.
  assert (Hnonempty :
    String.eqb (parse.DataFactoryId_ID provider factory) "" = false)
    by reflexivity.
  rewrite Hnonempty. reflexivity.
Qed.

(** ** The scalar fields a read that returns [nil] has written *)

Lemma establishes_by_Set (k : string) (v : any) (rest : run.M W Empty_set) :
  schema_check k v = None ->
  run.preserves (run.field k) rest ->
  run.establishes k v ((run.Set_ schema_check k v;; mret tt);; rest).
Proof.
  intros Haccepted Hrest s _. unfold mbind, M_bind, run.bind, run.Set_.
  cbn -[pluginsdk.Set_]. rewrite (Set__accepted _ _ _ Haccepted). cbn.
  rewrite Hrest. unfold run.field. cbn. apply lookup_insert_eq.
Qed.

Ltac establishes_scalar_step H :=
  first
    [ apply establishes_by_Set; [exact H|repeat frame_step]
    | apply establishes_after; [repeat returns_step; discriminate|intros ?] ].

(** X17. A read that finds a relational-table dataset and returns [nil]
    has written each of [description], [linked_service_name],
    [table_name] and [folder] that the response holds and the schema
    accepts, with the value of the response. *)
Theorem Read_success_writes_present_fields
  (meta : clients.Client.t W) (d : pluginsdk.ResourceData.t) (w w' : W)
  (log : list Call) (id : parse.DataSetId.t)
  (resp : datafactory.DatasetResource.t)
  (postgresqlTable : datafactory.RelationalTableDataset.t) :
  parse.DataSetID provider (pluginsdk.Id d) = inr id ->
  datafactory.DatasetsClient.Get (client_of meta) w
    (parse.DataSetId.ResourceGroup id) (parse.DataSetId.FactoryName id)
    (parse.DataSetId.Name id) "" = ((resp, None), w') ->
  datafactory.DatasetResource.Properties resp
  = Some (datafactory.IsRelationalTableDataset postgresqlTable) ->
  fst (run.handler (resourceDataFactoryDatasetPostgreSQLRead meta)
         (run.mkState d w log)) = run.Returned None ->
  let s' :=
    snd (run.handler (resourceDataFactoryDatasetPostgreSQLRead meta)
           (run.mkState d w log)) in
  (forall v, datafactory.upstream.description postgresqlTable = Some v ->
             schema_check "description" (AString v) = None ->
             run.field "description" s' = Some (AString v))
  /\ (forall v, datafactory.upstream.linked_service_name postgresqlTable = Some v ->
                schema_check "linked_service_name" (AString v) = None ->
                run.field "linked_service_name" s' = Some (AString v))
  /\ (forall v, datafactory.upstream.table_name postgresqlTable = Some v ->
                schema_check "table_name" (AString v) = None ->
                run.field "table_name" s' = Some (AString v))
  /\ (forall v, datafactory.upstream.folder postgresqlTable = Some v ->
                schema_check "folder" (AString v) = None ->
                run.field "folder" s' = Some (AString v)).
Proof.
  intros Hid Hget Hprops Hnil s'. subst s'.
  apply handler_returned in Hnil. rewrite handler_state. revert Hnil.
  unfold resourceDataFactoryDatasetPostgreSQLRead. unfold_run.
  cbn -[setRelationalTableFields pluginsdk.Set_].
  rewrite Hid. cbn -[setRelationalTableFields pluginsdk.Set_].
  rewrite Hget. cbn -[setRelationalTableFields pluginsdk.Set_].
  rewrite Hprops. cbn -[setRelationalTableFields pluginsdk.Set_].
  intros Hnil.
  repeat split; intros v Hpresent Haccepted;
    match goal with
    | |- run.field ?k _ = Some ?x =>
        assert (Hblock : run.establishes k x (setRelationalTableFields postgresqlTable))
    end;
    try (apply Hblock; exact Hnil).
  - unfold datafactory.upstream.description in Hpresent.
    unfold setRelationalTableFields. cbv zeta. rewrite Hpresent.
    repeat establishes_scalar_step Haccepted.
  - unfold datafactory.upstream.linked_service_name in Hpresent.
    unfold setRelationalTableFields. cbv zeta.
    destruct (datafactory.RelationalTableDataset.LinkedServiceName postgresqlTable)
      as [linkedService|]; [rewrite Hpresent|discriminate Hpresent].
    repeat establishes_scalar_step Haccepted.
  - unfold datafactory.upstream.table_name in Hpresent.
    unfold setRelationalTableFields. cbv zeta.
    destruct (datafactory.RelationalTableDataset.RelationalTableDatasetTypeProperties
                postgresqlTable) as [properties|]; [|discriminate Hpresent].
    destruct (datafactory.RelationalTableDatasetTypeProperties.TableName properties);
      try discriminate Hpresent.
    injection Hpresent as ->.
    repeat establishes_scalar_step Haccepted.
  - unfold datafactory.upstream.folder in Hpresent.
    unfold setRelationalTableFields. cbv zeta.
    destruct (datafactory.RelationalTableDataset.Folder postgresqlTable)
      as [folder|]; [rewrite Hpresent|discriminate Hpresent].
    repeat establishes_scalar_step Haccepted.
Qed.

(** X19. A fetch that succeeds with an entity that holds no properties
    makes the read handler panic at the classification, after it has
    issued the fetch. *)
Theorem Read_without_properties_panics
  (meta : clients.Client.t W) (d : pluginsdk.ResourceData.t) (w w' : W)
  (log : list Call) (id : parse.DataSetId.t)
  (resp : datafactory.DatasetResource.t) :
  parse.DataSetID provider (pluginsdk.Id d) = inr id ->
  datafactory.DatasetsClient.Get (client_of meta) w
    (parse.DataSetId.ResourceGroup id) (parse.DataSetId.FactoryName id)
    (parse.DataSetId.Name id) "" = ((resp, None), w') ->
  datafactory.DatasetResource.Properties resp = None ->
  let r := run.handler (resourceDataFactoryDatasetPostgreSQLRead meta)
             (run.mkState d w log) in
  fst r = run.Panicked
  /\ run.key (snd r) = pluginsdk.Id d
  /\ run.calls (snd r)
     = (log ++ [CallGet (parse.DataSetId.ResourceGroup id)
                  (parse.DataSetId.FactoryName id) (parse.DataSetId.Name id) ""])%list.
Proof.
  intros Hid Hget Hprops r. subst r.
  unfold resourceDataFactoryDatasetPostgreSQLRead. unfold_run.
  cbn -[pluginsdk.Set_]. rewrite Hid. cbn -[pluginsdk.Set_].
  rewrite Hget. cbn -[pluginsdk.Set_]. rewrite Hprops. cbn -[pluginsdk.Set_].
  unfold run.key. cbn -[pluginsdk.Set_]. rewrite !Set__id. repeat split.
Qed.

(** ** What create/update writes *)

Lemma CreateUpdate_preserves_field (meta : clients.Client.t W) (k : string) :
  "name" <> k -> "resource_group_name" <> k -> "data_factory_name" <> k ->
  "data_factory_id" <> k ->
  "additional_properties" <> k -> "description" <> k -> "parameters" <> k ->
  "annotations" <> k -> "linked_service_name" <> k -> "table_name" <> k ->
  "folder" <> k -> "schema_column" <> k ->
  run.preserves (run.field k) (resourceDataFactoryDatasetPostgreSQLCreateUpdate meta).
Proof.
  intros. unfold resourceDataFactoryDatasetPostgreSQLCreateUpdate,
    resolveDataSetId, checkForExisting, expandDataset.
  cbv zeta.
  repeat first
    [ apply Read_preserves_field; assumption
    | frame_step
    | match goal with
      | |- run.preserves _ (if ?x then _ else _) => destruct x
      end ].
Qed.

(** X18. The create/update handler, with the read it ends in, writes
    declared fields only: a key that the schema of the descriptor does not
    declare holds after the call, however it ends, what it held before. *)
Theorem CreateUpdate_writes_declared_fields_only
  (meta : clients.Client.t W) (s : run.State W) (k : string) :
  pluginsdk.schema_lookup k
    (pluginsdk.Resource.Schema resourceDataFactoryDatasetPostgreSQL) = None ->
  run.field k
    (snd (run.handler (resourceDataFactoryDatasetPostgreSQLCreateUpdate meta) s))
  = run.field k s.
Proof.
  intros H. rewrite handler_state.
  cbn [pluginsdk.Resource.Schema resourceDataFactoryDatasetPostgreSQL
       pluginsdk.schema_lookup] in H.
  repeat match type of H with
         | (if String.eqb ?a k then _ else _) = None =>
             destruct (String.eqb_spec a k); [discriminate H|]
         end.
  apply CreateUpdate_preserves_field; assumption.
Qed.

End Resource.

(** * The properties on the small platform *)

Local Abbreviation sample_Read :=
  (resourceDataFactoryDatasetPostgreSQLRead (W := sample.World) sample.provider
     sample.flattenParameters sample.flattenAnnotations sample.flattenStructure
     sample.accept).

Local Abbreviation sample_CreateUpdate :=
  (resourceDataFactoryDatasetPostgreSQLCreateUpdate (W := sample.World)
     sample.provider sample.expandParameters sample.flattenParameters
     sample.flattenAnnotations sample.expandStructure sample.flattenStructure
     sample.accept).

Local Abbreviation sample_Delete :=
  (resourceDataFactoryDatasetPostgreSQLDelete (W := sample.World) sample.provider).

(** The round trip at subscription [sub-1], resource group [rg], factory
    [factory], dataset [table]. *)
Lemma DataSetID_round_trip_sample :
  parse.DataSetID sample.provider
    (parse.DataSetId_ID sample.provider
       (parse.NewDataSetID "sub-1" "rg" "factory" "table"))
  = inr (parse.DataSetId.mk "sub-1" "rg" "factory" "table").
Proof.
  apply (DataSetID_round_trip sample.provider "sub-1" "rg" "factory" "table");
    reflexivity.
Defined.

(** Components with a separator, a percent escape, a query mark or a
    fragment mark in them are not valid ones, and neither is the empty
    component. *)
Lemma valid_segment_refuses_url_syntax :
  parse.valid_segment <$> [""; "a/b"; "a%20b"; "a?b"; "a#b"; "a b"]
  = [false; false; false; false; false; false].
Proof. reflexivity. Qed.

(** A dataset name with a separator in it does not come back. *)
Lemma DataSetID_separator_in_name_sample :
  let id := parse.NewDataSetID "sub-1" "rg" "factory" "a/b" in
  parse.DataSetID sample.provider (parse.DataSetId_ID sample.provider id)
  = inl (parse.Malformed (parse.DataSetId_ID sample.provider id)).
Proof. reflexivity. Qed.

(** A read on the empty platform: the entity is gone. *)
Lemma Read_not_found_clears_id_sample :
  run.handler (sample_Read (sample.meta None))
    (run.mkState sample.declared_after_read ∅ [])
  = (run.Returned None,
     run.mkState (pluginsdk.SetId "" sample.declared_after_read) ∅ [sample.probe]).
Proof.
  refine (proj1
    (@Read_not_found_clears_id sample.World sample.provider
       sample.flattenParameters sample.flattenAnnotations sample.flattenStructure
       sample.accept (sample.meta None) sample.declared_after_read ∅ ∅ []
       sample.dataset_id (sample.no_entity 404) (ExternalError "not found")
       _ _ _));
    vm_compute; reflexivity.
Defined.



(** A delete on the empty platform: deleting what is not there. *)
Lemma Delete_not_found_is_success_sample :
  run.handler (sample_Delete (sample.meta None))
    (run.mkState sample.declared_after_read ∅ [])
  = (run.Returned None,
     run.mkState sample.declared_after_read ∅ [CallDelete "rg" "factory" "table"]).
Proof.
  refine (@Delete_not_found_is_success sample.World sample.provider
            (sample.meta None) sample.declared_after_read ∅ ∅ []
            sample.dataset_id (sample.answer 404)
            (Some (ExternalError "not found")) _ _);
    vm_compute; reflexivity.
Defined.

(** A delete on a platform that fails with status 500: the error comes
    back wrapped. *)
Lemma Delete_other_failure_sample :
  fst (run.handler (sample_Delete (sample.meta (Some 500%Z)))
         (run.mkState sample.declared_after_read ∅ []))
  = run.Returned
      (Some (Deleting sample.dataset_id (ExternalError "request failed"))).
Proof. vm_compute. reflexivity. Qed.

(** A read on a platform that holds a bare relational table: the
    description and the linked service of the declared state stay, the
    table name and the folder stay unset; the additional properties, the
    parameters, the annotations and the columns are written as empty. *)
Lemma Read_leaves_absent_fields_unset_sample :
  let d' :=
    run.d (snd (run.handler (sample_Read (sample.meta None))
                  (run.mkState sample.declared_after_read
                     (sample.holding
                        (Some (datafactory.IsRelationalTableDataset sample.bare_table)))
                     []))) in
  (pluginsdk.ResourceData.values d' !! "description" = Some (AString "orders")
   /\ pluginsdk.ResourceData.values d' !! "linked_service_name" = Some (AString "pg")
   /\ pluginsdk.ResourceData.values d' !! "table_name" = None
   /\ pluginsdk.ResourceData.values d' !! "folder" = None)
  /\ pluginsdk.ResourceData.values d' !! "additional_properties" = Some (AMap [])
  /\ pluginsdk.ResourceData.values d' !! "parameters" = Some (AMap [])
  /\ pluginsdk.ResourceData.values d' !! "annotations" = Some (AList [])
  /\ pluginsdk.ResourceData.values d' !! "schema_column" = Some (AList []).
Proof.
  unshelve epose proof
    (@Read_leaves_absent_fields_unset sample.World sample.provider
       sample.flattenParameters sample.flattenAnnotations sample.flattenStructure
       sample.accept (sample.meta None) sample.declared_after_read
       (sample.holding
          (Some (datafactory.IsRelationalTableDataset sample.bare_table)))
       (sample.holding
          (Some (datafactory.IsRelationalTableDataset sample.bare_table))) []
       sample.dataset_id
       (sample.stored "rg" "factory" "table"
          (Some (datafactory.IsRelationalTableDataset sample.bare_table)))
       (datafactory.IsRelationalTableDataset sample.bare_table)
       sample.bare_table _ _ _ _) as H;
    [vm_compute; reflexivity ..|].
  cbv zeta in H. destruct H as ((H1 & H2 & H3 & H4) & H5 & H6). cbv zeta.
  rewrite (H1 eq_refl), (H2 eq_refl), (H3 eq_refl), (H4 eq_refl).
  split; [repeat split|]. split; [exact (H5 eq_refl)|].
  apply H6. vm_compute. reflexivity.
Defined.

(** A read that returns [nil] on a platform whose dataset holds no
    additional properties and no parameters: the map of additional
    properties of the declared state is replaced by the empty one, and
    [parameters], unset before, is set to the empty map. *)
Lemma Read_overwrites_absent_collections :
  let s := run.mkState sample.declared_with_extras
             (sample.holding
                (Some (datafactory.IsRelationalTableDataset sample.bare_table))) [] in
  let out := run.handler (sample_Read (sample.meta None)) s in
  datafactory.RelationalTableDataset.AdditionalProperties sample.bare_table = []
  /\ datafactory.RelationalTableDataset.Parameters sample.bare_table = []
  /\ fst out = run.Returned None
  /\ run.field "additional_properties" s = Some (AMap [("owner", AString "team")])
  /\ run.field "additional_properties" (snd out) = Some (AMap [])
  /\ run.field "parameters" s = None
  /\ run.field "parameters" (snd out) = Some (AMap []).
Proof. vm_compute. repeat split. Qed.

(** The collection-valued fields are written on every read: a map of
    additional properties in the declared state is replaced by the empty
    one the platform holds. *)
Lemma Read_writes_additional_properties_sample :
  pluginsdk.ResourceData.values
    (run.d (snd (run.handler (sample_Read (sample.meta None))
                   (run.mkState sample.declared_with_extras
                      (sample.holding
                         (Some (datafactory.IsRelationalTableDataset sample.bare_table)))
                      [])))) !! "additional_properties"
  = Some (AMap []).
Proof. vm_compute. reflexivity. Qed.

(** Create/update on a declared state with neither factory field. *)
Lemma CreateUpdate_nil_factory_id_sample :
  run.handler (sample_CreateUpdate (sample.meta None))
    (run.mkState sample.declared_without_factory ∅ [])
  = (run.Panicked, run.mkState sample.declared_without_factory ∅ []).
Proof.
  refine (proj2
    (@CreateUpdate_nil_factory_id sample.World sample.provider
       sample.expandParameters sample.flattenParameters sample.flattenAnnotations
       sample.expandStructure sample.flattenStructure sample.accept
       (sample.meta None) sample.declared_without_factory ∅ []) _ _);
    vm_compute; reflexivity.
Defined.

(** Create on a platform that holds the dataset already. *)
Lemma CreateUpdate_existing_is_conflict_sample :
  let w := sample.holding
             (Some (datafactory.IsRelationalTableDataset sample.bare_table)) in
  run.handler (sample_CreateUpdate (sample.meta None))
    (run.mkState sample.declared_by_name w [])
  = (run.Returned
       (Some (ImportAsExists "azurerm_data_factory_dataset_postgresql"
                (parse.DataSetId_ID sample.provider sample.dataset_id))),
     run.mkState sample.declared_by_name w [sample.probe]).
Proof.
  intros w.
  refine (proj1 (proj1
    (@CreateUpdate_existing_is_conflict sample.World sample.provider
       sample.expandParameters sample.flattenParameters sample.flattenAnnotations
       sample.expandStructure sample.flattenStructure sample.accept
       (sample.meta None) sample.declared_by_name w w [] sample.dataset_id
       (sample.stored "rg" "factory" "table"
          (Some (datafactory.IsRelationalTableDataset sample.bare_table)))
       None _ _ _)
    (parse.DataSetId_ID sample.provider sample.dataset_id) _ _ _));
    try (vm_compute; reflexivity).
  - discriminate.
  - left. reflexivity.
Defined.

(** A resource created through [data_factory_name] alone comes out of the
    handler with both factory fields set: the read handler writes both. *)
Lemma CreateUpdate_sets_both_factory_fields_sample :
  let d' :=
    run.d (snd (run.handler (sample_CreateUpdate (sample.meta None))
                  (run.mkState sample.declared_by_name ∅ []))) in
  pluginsdk.GetString sample.declared_by_name "data_factory_id" = ""
  /\ pluginsdk.GetString d' "data_factory_name" = "factory"
  /\ pluginsdk.GetString d' "data_factory_id"
     = "/subscriptions/sub-1/resourceGroups/rg/providers/Microsoft.DataFactory/factories/factory".
Proof. vm_compute. repeat split. Qed.

(** The identifier resolved on the declared state a read leaves, where
    both factory fields hold a value. *)
Lemma CreateUpdate_data_factory_id_takes_precedence_sample :
  let s := run.mkState sample.declared_after_read
             (sample.holding
                (Some (datafactory.IsRelationalTableDataset sample.bare_table))) [] in
  resolveDataSetId sample.provider (sample.meta None) s
  = (run.Next sample.dataset_id, s).
Proof.
  intros s.
  unshelve epose proof
    (@CreateUpdate_data_factory_id_takes_precedence sample.World sample.provider
       sample.expandParameters sample.flattenParameters sample.flattenAnnotations
       sample.expandStructure sample.flattenStructure sample.resourceGroupSchema
       sample.accept (sample.meta None) sample.declared_after_read
       (sample.holding
          (Some (datafactory.IsRelationalTableDataset sample.bare_table))) [] _)
    as H.
  { vm_compute. discriminate. }
  cbv zeta in H. destruct H as (_ & _ & H).
  change (parse.DataFactoryID sample.provider
            (pluginsdk.GetString sample.declared_after_read "data_factory_id"))
    with (inr (parse.NewDataFactoryID "sub-1" "rg" "factory")
          : parse.ParseError + parse.DataFactoryId.t) in H.
  destruct H as [H _]. exact H.
Defined.

(** On an update, where the declared state holds both factory fields as
    the read handler wrote them, the create/update handler does not
    refuse: it calls [CreateOrUpdate], reads back, and returns [nil]. *)
Lemma CreateUpdate_both_factory_fields_not_refused :
  let s := run.mkState sample.declared_after_read
             (sample.holding
                (Some (datafactory.IsRelationalTableDataset sample.bare_table))) [] in
  pluginsdk.GetString sample.declared_after_read "data_factory_name" = "factory"
  /\ pluginsdk.GetString sample.declared_after_read "data_factory_id"
     = "/subscriptions/sub-1/resourceGroups/rg/providers/Microsoft.DataFactory/factories/factory"
  /\ fst (run.handler (sample_CreateUpdate (sample.meta None)) s) = run.Returned None
  /\ is_create_or_update
       <$> run.calls (snd (run.handler (sample_CreateUpdate (sample.meta None)) s))
     = [true; false].
Proof. vm_compute. repeat split. Qed.

(** Create on the empty platform: the dataset is created and read back. *)
Lemma CreateUpdate_success_then_read_sample :
  let adopted :=
    pluginsdk.SetId (parse.DataSetId_ID sample.provider sample.dataset_id)
      sample.declared_by_name in
  run.handler (sample_CreateUpdate (sample.meta None))
    (run.mkState sample.declared_by_name ∅ [])
  = run.handler (sample_Read (sample.meta None))
      (run.mkState adopted
         (sample.holding
            (datafactory.DatasetResource.Properties sample.payload_by_name))
         [sample.probe;
          CallCreateOrUpdate "rg" "factory" "table" sample.payload_by_name ""])
  /\ pluginsdk.Id adopted
     = "/subscriptions/sub-1/resourceGroups/rg/providers/Microsoft.DataFactory/factories/factory/datasets/table"
  /\ pluginsdk.IsNewResource adopted = true
  /\ pluginsdk.ResourceData.values adopted
     = pluginsdk.ResourceData.values sample.declared_by_name.
Proof.
  refine (@CreateUpdate_success_then_read sample.World sample.provider
            sample.expandParameters sample.flattenParameters
            sample.flattenAnnotations sample.expandStructure
            sample.flattenStructure sample.accept (sample.meta None)
            (run.mkState sample.declared_by_name ∅ [])
            (run.mkState sample.declared_by_name ∅ [sample.probe])
            sample.dataset_id sample.payload_by_name
            (sample.stored "rg" "factory" "table"
               (datafactory.DatasetResource.Properties sample.payload_by_name))
            (sample.holding
               (datafactory.DatasetResource.Properties sample.payload_by_name))
            _ _ _ _);
    vm_compute; reflexivity.
Defined.

(** * The further properties on the small platform *)

(** A read leaves a key alone that the schema does not declare. *)
Lemma Read_writes_declared_fields_only_sample :
  let s := run.mkState sample.declared_with_stray_key
             (sample.holding
                (Some (datafactory.IsRelationalTableDataset sample.full_table))) [] in
  run.field "tags" (snd (run.handler (sample_Read (sample.meta None)) s))
  = run.field "tags" s.
Proof.
  intros s.
  refine (@Read_writes_declared_fields_only sample.World sample.provider
            sample.expandParameters sample.flattenParameters
            sample.flattenAnnotations sample.expandStructure
            sample.flattenStructure sample.resourceGroupSchema sample.accept
            (sample.meta None) s "tags" _).
  reflexivity.
Defined.

(** A read on a platform that fails with status 500. *)
Lemma Read_fetch_failure_keeps_state_sample :
  run.handler (sample_Read (sample.meta (Some 500%Z)))
    (run.mkState sample.declared_after_read ∅ [])
  = (run.Returned
       (Some (Retrieving sample.dataset_id (ExternalError "request failed"))),
     run.mkState sample.declared_after_read ∅ [sample.probe]).
Proof.
  refine (@Read_fetch_failure_keeps_state sample.World sample.provider
            sample.flattenParameters sample.flattenAnnotations
            sample.flattenStructure sample.accept (sample.meta (Some 500%Z))
            sample.declared_after_read ∅ ∅ [] sample.dataset_id
            (sample.no_entity 500) (ExternalError "request failed") _ _ _);
    vm_compute; reflexivity.
Defined.


(** The identity fields after a read of a dataset of another kind, which
    ends in the classification error. *)
Lemma Read_sets_identity_fields_sample :
  let s' :=
    snd (run.handler (sample_Read (sample.meta None))
           (run.mkState sample.declared_with_stray_key
              (sample.holding (Some (datafactory.IsOtherDataset "AzureBlob"))) [])) in
  run.field "name" s' = Some (AString "table")
  /\ run.field "resource_group_name" s' = Some (AString "rg")
  /\ run.field "data_factory_name" s' = Some (AString "factory")
  /\ run.field "data_factory_id" s'
     = Some (AString (parse.DataFactoryId_ID sample.provider
                        (parse.NewDataFactoryID "sub-1" "rg" "factory"))).
Proof.
  refine (@Read_sets_identity_fields sample.World sample.provider
            sample.flattenParameters sample.flattenAnnotations
            sample.flattenStructure sample.accept (sample.meta None)
            sample.declared_with_stray_key
            (sample.holding (Some (datafactory.IsOtherDataset "AzureBlob")))
            (sample.holding (Some (datafactory.IsOtherDataset "AzureBlob"))) []
            sample.dataset_id
            (sample.stored "rg" "factory" "table"
               (Some (datafactory.IsOtherDataset "AzureBlob")))
            _ _ _ _ _ _);
    vm_compute; reflexivity.
Defined.

(** The collections after a read of a bare relational table. *)
Lemma Read_success_writes_collections_sample :
  let s' :=
    snd (run.handler (sample_Read (sample.meta None))
           (run.mkState sample.declared_with_extras
              (sample.holding
                 (Some (datafactory.IsRelationalTableDataset sample.bare_table)))
              [])) in
  run.field "parameters" s' = Some (AMap [])
  /\ run.field "annotations" s' = Some (AList [])
  /\ run.field "schema_column" s' = Some (AList []).
Proof.
  refine (@Read_success_writes_collections sample.World sample.provider
            sample.flattenParameters sample.flattenAnnotations
            sample.flattenStructure sample.accept (sample.meta None)
            sample.declared_with_extras
            (sample.holding
               (Some (datafactory.IsRelationalTableDataset sample.bare_table)))
            (sample.holding
               (Some (datafactory.IsRelationalTableDataset sample.bare_table))) []
            sample.dataset_id
            (sample.stored "rg" "factory" "table"
               (Some (datafactory.IsRelationalTableDataset sample.bare_table)))
            sample.bare_table _ _ _ _);
    vm_compute; reflexivity.
Defined.

(** The scalars after a read of a relational table that holds them all. *)
Lemma Read_success_writes_present_fields_sample :
  let s' :=
    snd (run.handler (sample_Read (sample.meta None))
           (run.mkState sample.declared_after_read
              (sample.holding
                 (Some (datafactory.IsRelationalTableDataset sample.full_table)))
              [])) in
  run.field "description" s' = Some (AString "orders of the shop")
  /\ run.field "linked_service_name" s' = Some (AString "warehouse")
  /\ run.field "table_name" s' = Some (AString "public.orders")
  /\ run.field "folder" s' = Some (AString "sales").
Proof.
  unshelve epose proof
    (@Read_success_writes_present_fields sample.World sample.provider
       sample.flattenParameters sample.flattenAnnotations sample.flattenStructure
       sample.accept (sample.meta None) sample.declared_after_read
       (sample.holding
          (Some (datafactory.IsRelationalTableDataset sample.full_table)))
       (sample.holding
          (Some (datafactory.IsRelationalTableDataset sample.full_table))) []
       sample.dataset_id
       (sample.stored "rg" "factory" "table"
          (Some (datafactory.IsRelationalTableDataset sample.full_table)))
       sample.full_table _ _ _ _) as H;
    [vm_compute; reflexivity ..|].
  cbv zeta in H. destruct H as (H1 & H2 & H3 & H4). cbv zeta.
  split; [apply H1; reflexivity|].
  split; [apply H2; reflexivity|].
  split; [apply H3; reflexivity|apply H4; reflexivity].
Defined.

(** A read of an entity without properties. *)
Lemma Read_without_properties_panics_sample :
  let r := run.handler (sample_Read (sample.meta None))
             (run.mkState sample.declared_after_read (sample.holding None) []) in
  fst r = run.Panicked
  /\ run.key (snd r) = pluginsdk.Id sample.declared_after_read
  /\ run.calls (snd r) = [sample.probe].
Proof.
  refine (@Read_without_properties_panics sample.World sample.provider
            sample.flattenParameters sample.flattenAnnotations
            sample.flattenStructure sample.accept (sample.meta None)
            sample.declared_after_read (sample.holding None) (sample.holding None)
            [] sample.dataset_id (sample.stored "rg" "factory" "table" None)
            _ _ _);
    vm_compute; reflexivity.
Defined.

(** A read of a dataset of another kind whose envelope has no type. *)
Lemma Read_other_variant_without_type_sample :
  fst (run.handler (sample_Read (sample.meta None))
         (run.mkState sample.declared_after_read sample.holding_untyped []))
  = run.Panicked.
Proof.
  refine (@Read_other_variant_without_type sample.World sample.provider
            sample.flattenParameters sample.flattenAnnotations
            sample.flattenStructure sample.accept (sample.meta None)
            sample.declared_after_read sample.holding_untyped
            sample.holding_untyped [] sample.dataset_id
            (datafactory.DatasetResource.mk (sample.answer 200)
               (Some (datafactory.IsOtherDataset "AzureBlob"))
               (Some (parse.DataSetId_ID sample.provider sample.dataset_id))
               (Some "table") None None)
            (datafactory.IsOtherDataset "AzureBlob") _ _ _ _ _);
    vm_compute; reflexivity.
Defined.

(** The importer and the two handlers on a key that parses. *)
Lemma Importer_agrees_with_handlers_sample :
  let s := run.mkState sample.declared_after_read ∅ [] in
  match sample.validate (run.key s) with
  | Some err =>
      run.handler (sample_Read (sample.meta None)) s = (run.Returned (Some err), s)
      /\ run.handler (sample_Delete (sample.meta None)) s
         = (run.Returned (Some err), s)
  | None =>
      forall e : error,
        is_parse_failure e = true ->
        fst (run.handler (sample_Read (sample.meta None)) s)
        <> run.Returned (Some e)
        /\ fst (run.handler (sample_Delete (sample.meta None)) s)
           <> run.Returned (Some e)
  end.
Proof.
  intros s.
  refine (@Importer_agrees_with_handlers sample.World sample.provider
            sample.expandParameters sample.flattenParameters
            sample.flattenAnnotations sample.expandStructure
            sample.flattenStructure sample.resourceGroupSchema sample.accept
            (sample.meta None) s sample.validate _).
  reflexivity.
Defined.

(** An update on a platform that fails with status 500. *)
Lemma CreateUpdate_failure_keeps_state_sample :
  let r := run.handler (sample_CreateUpdate (sample.meta (Some 500%Z)))
             (run.mkState sample.declared_after_read ∅ []) in
  fst r
  = run.Returned
      (Some (CreatingUpdating sample.dataset_id (ExternalError "request failed")))
  /\ run.d (snd r) = sample.declared_after_read.
Proof.
  cbv zeta.
  erewrite (@CreateUpdate_failure_keeps_state sample.World sample.provider
              sample.expandParameters sample.flattenParameters
              sample.flattenAnnotations sample.expandStructure
              sample.flattenStructure sample.accept (sample.meta (Some 500%Z))
              (run.mkState sample.declared_after_read ∅ [])
              (run.mkState sample.declared_after_read ∅ [])
              sample.dataset_id sample.payload_described (sample.no_entity 500)
              (ExternalError "request failed") ∅).
  - split; reflexivity.
  - vm_compute. reflexivity.
  - vm_compute. reflexivity.
  - vm_compute. reflexivity.
  - vm_compute. reflexivity.
Defined.

(** The error of a create on a platform that holds the dataset already is
    a create/update error. *)
Lemma CreateUpdate_errors_sample :
  is_create_update_error
    (ImportAsExists "azurerm_data_factory_dataset_postgresql"
       (parse.DataSetId_ID sample.provider sample.dataset_id))
  = true.
Proof.
  refine (@CreateUpdate_errors sample.World sample.provider
            sample.expandParameters sample.flattenParameters
            sample.flattenAnnotations sample.expandStructure
            sample.flattenStructure sample.accept (sample.meta None)
            (run.mkState sample.declared_by_name
               (sample.holding
                  (Some (datafactory.IsRelationalTableDataset sample.bare_table)))
               []) _ _).
  vm_compute. reflexivity.
Defined.

(** The calls of a create on the empty platform. *)
Lemma CreateUpdate_call_kinds_sample :
  let s := run.mkState sample.declared_by_name ∅ [] in
  exists rest : list Call,
    run.calls (snd (run.handler (sample_CreateUpdate (sample.meta None)) s))
    = (run.calls s ++ rest)%list
    /\ In (kind_of <$> rest)
         [ []; [KindGet]; [KindCreateOrUpdate]; [KindCreateOrUpdate; KindGet];
           [KindGet; KindCreateOrUpdate];
           [KindGet; KindCreateOrUpdate; KindGet] ]
    /\ (pluginsdk.IsNewResource (run.d s) = false ->
        In (kind_of <$> rest)
          [ []; [KindCreateOrUpdate]; [KindCreateOrUpdate; KindGet] ]).
Proof.
  intros s.
  exact (@CreateUpdate_call_kinds sample.World sample.provider
           sample.expandParameters sample.flattenParameters
           sample.flattenAnnotations sample.expandStructure
           sample.flattenStructure sample.accept (sample.meta None) s).
Defined.


(** Two declared states that differ in the description resolve alike. *)
Lemma resolveDataSetId_reads_identity_fields_only_sample :
  fst (resolveDataSetId sample.provider (sample.meta None)
         (run.mkState sample.declared_by_name ∅ []))
  = fst (resolveDataSetId sample.provider (sample.meta None)
           (run.mkState sample.declared_by_name_described
              (sample.holding None) [sample.probe])).
Proof.
  refine (proj1
    (@resolveDataSetId_reads_identity_fields_only sample.World sample.provider
       sample.expandParameters sample.flattenParameters sample.flattenAnnotations
       sample.expandStructure sample.flattenStructure sample.resourceGroupSchema
       sample.accept (sample.meta None) sample.declared_by_name
       sample.declared_by_name_described ∅ (sample.holding None) []
       [sample.probe] _ _ _ _));
    reflexivity.
Defined.

(** After a read, an update addresses the dataset of the key. *)
Lemma update_after_read_addresses_key_sample :
  let s' :=
    snd (run.handler (sample_Read (sample.meta None))
           (run.mkState sample.declared_after_read
              (sample.holding
                 (Some (datafactory.IsRelationalTableDataset sample.full_table)))
              [])) in
  fst (resolveDataSetId sample.provider (sample.meta None) s')
  = run.Next sample.dataset_id.
Proof.
  refine (@update_after_read_addresses_key sample.World sample.provider
            sample.flattenParameters sample.flattenAnnotations
            sample.flattenStructure sample.accept (sample.meta None)
            sample.declared_after_read
            (sample.holding
               (Some (datafactory.IsRelationalTableDataset sample.full_table)))
            (sample.holding
               (Some (datafactory.IsRelationalTableDataset sample.full_table))) []
            sample.dataset_id
            (sample.stored "rg" "factory" "table"
               (Some (datafactory.IsRelationalTableDataset sample.full_table)))
            _ _ _ _ _ _ _);
    vm_compute; reflexivity.
Defined.

(** An update leaves a key alone that the schema does not declare. *)
Lemma CreateUpdate_writes_declared_fields_only_sample :
  let s := run.mkState sample.declared_with_stray_key
             (sample.holding
                (Some (datafactory.IsRelationalTableDataset sample.full_table))) [] in
  run.field "tags" (snd (run.handler (sample_CreateUpdate (sample.meta None)) s))
  = run.field "tags" s.
Proof.
  intros s.
  refine (@CreateUpdate_writes_declared_fields_only sample.World sample.provider
            sample.expandParameters sample.flattenParameters
            sample.flattenAnnotations sample.expandStructure
            sample.flattenStructure sample.resourceGroupSchema sample.accept
            (sample.meta None) s "tags" _).
  reflexivity.
Defined.
